(** * A text console and a keyboard decoder for a freestanding i386 kernel

    Shallow embedding of the kernel's VGA text terminal (terminal.c),
    of the packing helpers it takes from vga.h, and of the scancode loop
    of kernel_main (kernel.c), followed by the properties of the
    natural-language specification that were checked against them.

    Conventions.
    - The target is i386: [size_t] is 32 bits wide.  Every C integer is
      a [Z]; each conversion to a fixed width is written out with
      [to_uint8], [to_uint16] or [to_size_t].
    - [terminal_buffer] is a pointer to memory-mapped cells, indexed by a
      [size_t] without any bounds check.  It is modelled as a total map
      from the index to the 16-bit cell, so that a store outside the
      80x25 grid is a store like any other, as on the machine.
    - Port output is a log of the [outb] calls, oldest first. *)

From Stdlib Require Import ZArith List Bool Lia.
From Stdlib Require String Ascii.
Import ListNotations.
Local Open Scope Z_scope.

(** ** Fixed-width conversions *)

Definition to_uint8 (x : Z) : Z := x mod 2 ^ 8.
Definition to_uint16 (x : Z) : Z := x mod 2 ^ 16.
Definition to_size_t (x : Z) : Z := x mod 2 ^ 32.

(** ** vga.h: geometry, colours and cell packing *)

Module Vga.

Definition VGA_WIDTH : Z := 80.
Definition VGA_HEIGHT : Z := 25.

Inductive vga_color : Set :=
| VGA_COLOR_BLACK | VGA_COLOR_BLUE | VGA_COLOR_GREEN | VGA_COLOR_CYAN
| VGA_COLOR_RED | VGA_COLOR_MAGENTA | VGA_COLOR_BROWN
| VGA_COLOR_LIGHT_GREY | VGA_COLOR_DARK_GREY | VGA_COLOR_LIGHT_BLUE
| VGA_COLOR_LIGHT_GREEN | VGA_COLOR_LIGHT_CYAN | VGA_COLOR_LIGHT_RED
| VGA_COLOR_LIGHT_MAGENTA | VGA_COLOR_LIGHT_BROWN | VGA_COLOR_WHITE.

(** The enumerators' values. *)
Definition color_code (c : vga_color) : Z :=
  match c with
  | VGA_COLOR_BLACK => 0 | VGA_COLOR_BLUE => 1 | VGA_COLOR_GREEN => 2
  | VGA_COLOR_CYAN => 3 | VGA_COLOR_RED => 4 | VGA_COLOR_MAGENTA => 5
  | VGA_COLOR_BROWN => 6 | VGA_COLOR_LIGHT_GREY => 7
  | VGA_COLOR_DARK_GREY => 8 | VGA_COLOR_LIGHT_BLUE => 9
  | VGA_COLOR_LIGHT_GREEN => 10 | VGA_COLOR_LIGHT_CYAN => 11
  | VGA_COLOR_LIGHT_RED => 12 | VGA_COLOR_LIGHT_MAGENTA => 13
  | VGA_COLOR_LIGHT_BROWN => 14 | VGA_COLOR_WHITE => 15
  end.

(** [return fg | bg << 4;] converted to [uint8_t]. *)
Definition vga_entry_color (fg bg : vga_color) : Z :=
  to_uint8 (Z.lor (color_code fg) (Z.shiftl (color_code bg) 4)).

(** [return (uint16_t) uc | (uint16_t) color << 8;] where the argument
    [uc] is converted to [unsigned char] at the call. *)
Definition vga_entry (uc color : Z) : Z :=
  to_uint16 (Z.lor (to_uint16 (to_uint8 uc))
                   (Z.shiftl (to_uint16 (to_uint8 color)) 8)).

End Vga.
Import Vga.

(** Character constants of the source. *)
Definition char_newline : Z := 10.   (* '\n' *)
Definition char_tab : Z := 9.        (* '\t' *)
Definition char_backspace : Z := 8.  (* '\b' *)
Definition char_space : Z := 32.     (* ' '  *)

(** ** Machine state seen by the terminal *)

Record terminal : Type := mkTerminal {
  terminal_row : Z;
  terminal_column : Z;
  terminal_color : Z;
  terminal_buffer : Z -> Z;
  outb_log : list (Z * Z)
}.

Definition set_row (s : terminal) (r : Z) : terminal :=
  mkTerminal r (terminal_column s) (terminal_color s) (terminal_buffer s)
             (outb_log s).

Definition set_column (s : terminal) (c : Z) : terminal :=
  mkTerminal (terminal_row s) c (terminal_color s) (terminal_buffer s)
             (outb_log s).

Definition set_buffer (s : terminal) (b : Z -> Z) : terminal :=
  mkTerminal (terminal_row s) (terminal_column s) (terminal_color s) b
             (outb_log s).

(** [buf[i] = v].  Cells are told apart by their index; on the machine
    two indices 2^31 apart address the same cell, so statements about
    stores are made for cursors whose flat index is far below that. *)
Definition store (buf : Z -> Z) (i v : Z) : Z -> Z :=
  fun j => if j =? i then v else buf j.

(** [terminal_buffer[index] = v] *)
Definition poke (s : terminal) (index v : Z) : terminal :=
  set_buffer s (store (terminal_buffer s) index v).

(** [outb(port, val)]: the port write is appended to the log. *)
Definition outb (s : terminal) (port val : Z) : terminal :=
  mkTerminal (terminal_row s) (terminal_column s) (terminal_color s)
             (terminal_buffer s) (outb_log s ++ [(port, val)]).

(** [for (size_t i = 0; i < n; i++) body]: the body runs for
    i = 0, 1, ..., n-1 in this order. *)
Fixpoint for_upto {A : Type} (n : nat) (body : Z -> A -> A) (a : A) : A :=
  match n with
  | O => a
  | S k => body (Z.of_nat k) (for_upto k body a)
  end.

(** The cell of the grid at column [x] of row [y]. *)
Definition cell (s : terminal) (x y : Z) : Z :=
  terminal_buffer s (y * VGA_WIDTH + x).

(** ** terminal.c *)

Definition terminal_update_cursor (s : terminal) (x y : Z) : terminal :=
  let pos := to_uint16 (to_size_t (y * VGA_WIDTH + x)) in
  let s := outb s 0x3D4 0x0F in
  let s := outb s 0x3D5 (to_uint8 (Z.land pos 0xFF)) in
  let s := outb s 0x3D4 0x0E in
  outb s 0x3D5 (to_uint8 (Z.land (Z.shiftr pos 8) 0xFF)).

Definition terminal_initialize (s : terminal) : terminal :=
  let s := set_row s 0 in
  let s := set_column s 0 in
  let s := mkTerminal (terminal_row s) (terminal_column s)
             (vga_entry_color VGA_COLOR_LIGHT_RED VGA_COLOR_DARK_GREY)
             (terminal_buffer s) (outb_log s) in
  let s :=
    for_upto (Z.to_nat VGA_HEIGHT) (fun y s =>
      for_upto (Z.to_nat VGA_WIDTH) (fun x s =>
        let index := to_size_t (y * VGA_WIDTH + x) in
        poke s index (vga_entry char_space (terminal_color s))) s) s in
  terminal_update_cursor s (terminal_column s) (terminal_row s).

Definition terminal_setcolor (s : terminal) (color : Z) : terminal :=
  mkTerminal (terminal_row s) (terminal_column s) (to_uint8 color)
             (terminal_buffer s) (outb_log s).

Definition terminal_scroll (s : terminal) : terminal :=
  let s :=
    for_upto (Z.to_nat (VGA_HEIGHT - 1)) (fun y s =>
      for_upto (Z.to_nat VGA_WIDTH) (fun x s =>
        let src_index := to_size_t ((y + 1) * VGA_WIDTH + x) in
        let dest_index := to_size_t (y * VGA_WIDTH + x) in
        poke s dest_index (terminal_buffer s src_index)) s) s in
  let last_row_y := VGA_HEIGHT - 1 in
  for_upto (Z.to_nat VGA_WIDTH) (fun x s =>
    let index := to_size_t (last_row_y * VGA_WIDTH + x) in
    poke s index (vga_entry char_space (terminal_color s))) s.

(** The statement
    [if (++terminal_row == VGA_HEIGHT) { terminal_scroll();
       terminal_row = VGA_HEIGHT - 1; }]
    which the newline, tab and regular-character branches of
    [terminal_putchar] each contain. *)
Definition advance_row (s : terminal) : terminal :=
  let s := set_row s (to_size_t (terminal_row s + 1)) in
  if terminal_row s =? VGA_HEIGHT then
    let s := terminal_scroll s in
    set_row s (VGA_HEIGHT - 1)
  else s.

(** The last statement of [terminal_putchar]:
    [terminal_update_cursor(terminal_column, terminal_row);] *)
Definition sync_cursor (s : terminal) : terminal :=
  terminal_update_cursor s (terminal_column s) (terminal_row s).

(** The argument [c] is the [char] that was passed.  Only the backspace
    branch at the origin leaves through [return]; every other path falls
    through to the final [terminal_update_cursor]. *)
Definition terminal_putchar (s : terminal) (c : Z) : terminal :=
  if c =? char_newline then
    let s := set_column s 0 in
    sync_cursor (advance_row s)
  else if c =? char_tab then
    let s := set_column s
               (Z.land (to_size_t (terminal_column s + 4))
                       (to_size_t (Z.lnot 3))) in
    if VGA_WIDTH <=? terminal_column s then
      let s := set_column s 0 in
      sync_cursor (advance_row s)
    else sync_cursor s
  else if c =? char_backspace then
    if (terminal_row s =? 0) && (terminal_column s =? 0) then s
    else if 0 <? terminal_column s then
      let s := set_column s (to_size_t (terminal_column s - 1)) in
      let index :=
        to_size_t (terminal_row s * VGA_WIDTH + terminal_column s) in
      sync_cursor (poke s index (vga_entry char_space (terminal_color s)))
    else
      let s := set_row s (to_size_t (terminal_row s - 1)) in
      let s := set_column s VGA_WIDTH in
      let index :=
        to_size_t (terminal_row s * VGA_WIDTH + terminal_column s) in
      sync_cursor (poke s index (vga_entry char_space (terminal_color s)))
  else
    let index :=
      to_size_t (terminal_row s * VGA_WIDTH + terminal_column s) in
    let s := poke s index (vga_entry c (terminal_color s)) in
    let s := set_column s (to_size_t (terminal_column s + 1)) in
    if terminal_column s =? VGA_WIDTH then
      let s := set_column s 0 in
      sync_cursor (advance_row s)
    else sync_cursor s.

(** [terminal_write(data, size)] with [data] the [size] bytes read. *)
Definition terminal_write (s : terminal) (data : list Z) : terminal :=
  fold_left terminal_putchar data s.

(** [strlen]: the number of bytes before the first zero byte. *)
Fixpoint strlen (str : list Z) : nat :=
  match str with
  | [] => O
  | c :: rest => if c =? 0 then O else S (strlen rest)
  end.

Definition terminal_writestring (s : terminal) (data : list Z) : terminal :=
  terminal_write s (firstn (strlen data) data).

(** ** kernel.c: the scancode loop of kernel_main *)

(** The bytes of a string literal, without the terminating zero. *)
Definition bytes_of (str : String.string) : list Z :=
  map (fun a => Z.of_N (Ascii.N_of_ascii a)) (String.list_ascii_of_string str).

Module Literals.
Import String.
Local Open Scope string_scope.
(** The literal passed to [terminal_writestring], up to its ["\n"]. *)
Definition boot_text : string := "Kernel Booted. Try Shift AND Caps Lock!".
End Literals.

Definition boot_message : list Z :=
  bytes_of Literals.boot_text ++ [char_newline; 0].

Record kernel : Type := mkKernel {
  is_shift_pressed : bool;
  is_caps_locked : bool;
  console : terminal
}.

Section KernelMain.

(** [char scancode_to_ascii(uint8_t scancode, bool capital)] is only
    declared in keyboard.h; its translation table is a parameter. *)
Variable scancode_to_ascii : Z -> bool -> Z.

(** The statements of [kernel_main] before the loop. *)
Definition kernel_boot (s : terminal) : kernel :=
  let s := terminal_initialize s in
  let s := terminal_writestring s boot_message in
  mkKernel false false s.

(** One iteration of [while (1)], for the byte [scancode] that
    [keyboard_read_scancode] returned. *)
Definition kernel_step (k : kernel) (scancode : Z) : kernel :=
  if (scancode =? 0x2A) || (scancode =? 0x36) then
    mkKernel true (is_caps_locked k) (console k)
  else if (scancode =? 0xAA) || (scancode =? 0xB6) then
    mkKernel false (is_caps_locked k) (console k)
  else if scancode =? 0x3A then
    mkKernel (is_shift_pressed k) (negb (is_caps_locked k)) (console k)
  else if scancode <? 0x80 then
    let c := scancode_to_ascii scancode
               (xorb (is_shift_pressed k) (is_caps_locked k)) in
    if negb (c =? 0) then
      mkKernel (is_shift_pressed k) (is_caps_locked k)
               (terminal_putchar (console k) c)
    else k
  else k.

(** [kernel_main] run on the scancodes the keyboard delivers. *)
Definition kernel_main (s : terminal) (scancodes : list Z) : kernel :=
  fold_left kernel_step scancodes (kernel_boot s).

End KernelMain.

(** ** Well-formed states *)

(** The ranges of the C types of the terminal's variables. *)
Record wf (s : terminal) : Prop := mkWf {
  wf_row : 0 <= terminal_row s < 2 ^ 32;
  wf_column : 0 <= terminal_column s < 2 ^ 32;
  wf_color : 0 <= terminal_color s < 2 ^ 8
}.

(** The cursor lies on the grid. *)
Definition in_grid (s : terminal) : Prop :=
  0 <= terminal_row s < VGA_HEIGHT /\ 0 <= terminal_column s < VGA_WIDTH.

(** A byte that [terminal_putchar] treats as a regular character. *)
Definition regular (c : Z) : Prop :=
  c <> char_newline /\ c <> char_tab /\ c <> char_backspace.

(** Memory and registers before the kernel runs: nothing written yet. *)
Definition power_on : terminal := mkTerminal 0 0 0 (fun _ => 0) [].

(** The sequence of port writes that programs the cursor register pair
    with the 16-bit position [pos]. *)
Definition cursor_writes (pos : Z) : list (Z * Z) :=
  [(0x3D4, 0x0F); (0x3D5, pos mod 256); (0x3D4, 0x0E); (0x3D5, pos / 256)].

(** A translation with a single key, 0x1E, giving the letter a or A; it
    instantiates the parameter of the loop in the examples. *)
Definition one_key_table (scancode : Z) (capital : bool) : Z :=
  if scancode =? 0x1E then (if capital then 65 else 97) else 0.

(** The screen after boot, rows 0 and 1 filled with the letter A: a state
    the kernel reaches by writing 160 characters. *)
Definition two_rows_of_A : terminal :=
  terminal_write (terminal_initialize power_on) (repeat 65 160).

(** ** Vocabulary of the statements *)

(** [s'] differs from [s] at most in the contents of the buffer. *)
Definition same_registers (s s' : terminal) : Prop :=
  terminal_row s' = terminal_row s /\
  terminal_column s' = terminal_column s /\
  terminal_color s' = terminal_color s /\
  outb_log s' = outb_log s.

(** [s'] is [s] with the cells [lo .. lo+k-1] set to [v]. *)
Definition filled (lo k v : Z) (s s' : terminal) : Prop :=
  same_registers s s' /\
  forall j, terminal_buffer s' j =
            if (lo <=? j) && (j <? lo + k) then v else terminal_buffer s j.

(** [s'] is [s] with the cells [0 .. k-1] replaced by the cells one row
    further down. *)
Definition shifted (k : Z) (s s' : terminal) : Prop :=
  same_registers s s' /\
  forall j, terminal_buffer s' j =
            if (0 <=? j) && (j <? k) then terminal_buffer s (j + VGA_WIDTH)
            else terminal_buffer s j.

(** The attribute that [terminal_initialize] selects. *)
Definition default_color : Z :=
  vga_entry_color VGA_COLOR_LIGHT_RED VGA_COLOR_DARK_GREY.

(** The port log ends with the cursor sequence for the position the
    cursor variables hold. *)
Definition hardware_cursor_synced (s : terminal) : Prop :=
  exists earlier,
    outb_log s =
      earlier ++
      cursor_writes
        ((terminal_row s * VGA_WIDTH + terminal_column s) mod 2 ^ 16).

(** A flat index of the 80x25 grid. *)
Definition on_screen (j : Z) : Prop := 0 <= j < VGA_WIDTH * VGA_HEIGHT.

(** ** Earlier stages of the kernel (src/unnamed/part_003)

    part_003 holds two earlier single-file kernels.  Both keep the same
    four variables and have no port output; their [terminal_putchar]
    differ from the final one and from each other. *)

(** [terminal_putentryat(c, color, x, y)], the same in both stages. *)
Definition terminal_putentryat (s : terminal) (c color x y : Z) : terminal :=
  let index := to_size_t (y * VGA_WIDTH + x) in
  poke s index (vga_entry c color).

(** The first kernel (second half of part_003): every byte is a glyph, and
    the cursor wraps from the last cell to the first. *)
Module Stage1.

Definition terminal_initialize (s : terminal) : terminal :=
  let s := set_row s 0 in
  let s := set_column s 0 in
  let s := mkTerminal (terminal_row s) (terminal_column s)
             (vga_entry_color VGA_COLOR_LIGHT_GREY VGA_COLOR_BLACK)
             (terminal_buffer s) (outb_log s) in
  for_upto (Z.to_nat VGA_HEIGHT) (fun y s =>
    for_upto (Z.to_nat VGA_WIDTH) (fun x s =>
      let index := to_size_t (y * VGA_WIDTH + x) in
      poke s index (vga_entry char_space (terminal_color s))) s) s.

Definition terminal_putchar (s : terminal) (c : Z) : terminal :=
  let s := terminal_putentryat s c (terminal_color s)
             (terminal_column s) (terminal_row s) in
  let s := set_column s (to_size_t (terminal_column s + 1)) in
  if terminal_column s =? VGA_WIDTH then
    let s := set_column s 0 in
    let s := set_row s (to_size_t (terminal_row s + 1)) in
    if terminal_row s =? VGA_HEIGHT then set_row s 0 else s
  else s.

Definition terminal_write (s : terminal) (data : list Z) : terminal :=
  fold_left terminal_putchar data s.

End Stage1.

(** The second kernel (first half of part_003): newline and tab move the
    cursor and return; neither the row nor the column is checked there. *)
Module Stage2.

Definition terminal_initialize (s : terminal) : terminal :=
  let s := set_row s 0 in
  let s := set_column s 0 in
  let s := mkTerminal (terminal_row s) (terminal_column s)
             (vga_entry_color VGA_COLOR_BLUE VGA_COLOR_BLACK)
             (terminal_buffer s) (outb_log s) in
  for_upto (Z.to_nat VGA_HEIGHT) (fun y s =>
    for_upto (Z.to_nat VGA_WIDTH) (fun x s =>
      let index := to_size_t (y * VGA_WIDTH + x) in
      poke s index (vga_entry char_space (terminal_color s))) s) s.

Definition terminal_putchar (s : terminal) (c : Z) : terminal :=
  if c =? char_newline then
    let s := set_column s 0 in
    set_row s (to_size_t (terminal_row s + 1))
  else if c =? char_tab then
    set_column s (to_size_t (terminal_column s + 4))
  else
    let s := terminal_putentryat s c (terminal_color s)
               (terminal_column s) (terminal_row s) in
    let s := set_column s (to_size_t (terminal_column s + 1)) in
    if terminal_column s =? VGA_WIDTH then
      let s := set_column s 0 in
      let s := set_row s (to_size_t (terminal_row s + 1)) in
      if terminal_row s =? VGA_HEIGHT then set_row s 0 else s
    else s.

Definition terminal_write (s : terminal) (data : list Z) : terminal :=
  fold_left terminal_putchar data s.

End Stage2.

(** * Arithmetic of the fixed-width conversions *)

Ltac zbool :=
  repeat match goal with
    | |- context [?a =? ?b] => destruct (Z.eqb_spec a b)
    | |- context [?a <=? ?b] => destruct (Z.leb_spec a b)
    | |- context [?a <? ?b] => destruct (Z.ltb_spec a b)
    end;
  cbn [andb orb negb].

Ltac geometry := unfold VGA_WIDTH, VGA_HEIGHT in *.

Lemma to_size_t_small (x : Z) : 0 <= x < 2 ^ 32 -> to_size_t x = x.
Proof. intros H. unfold to_size_t. now apply Z.mod_small. Qed.

Lemma to_uint8_small (x : Z) : 0 <= x < 2 ^ 8 -> to_uint8 x = x.
Proof. intros H. unfold to_uint8. now apply Z.mod_small. Qed.

Lemma to_uint16_of_size_t (x : Z) : to_uint16 (to_size_t x) = x mod 2 ^ 16.
Proof.
  unfold to_uint16, to_size_t.
  apply Z.mod_mod_divide. exists (2 ^ 16). reflexivity.
Qed.

Lemma low_byte (p : Z) :
  0 <= p < 2 ^ 16 -> to_uint8 (Z.land p 0xFF) = p mod 256.
Proof.
  intros Hp. change 0xFF with (Z.ones 8).
  rewrite Z.land_ones by lia. unfold to_uint8.
  change (2 ^ 8) with 256. apply Z.mod_mod. lia.
Qed.

Lemma high_byte (p : Z) :
  0 <= p < 2 ^ 16 -> to_uint8 (Z.land (Z.shiftr p 8) 0xFF) = p / 256.
Proof.
  intros Hp. change 0xFF with (Z.ones 8).
  rewrite Z.land_ones, Z.shiftr_div_pow2 by lia. unfold to_uint8.
  change (2 ^ 8) with 256. rewrite Z.mod_mod by lia.
  apply Z.mod_small. split.
  - apply Z.div_pos; lia.
  - apply Z.div_lt_upper_bound; lia.
Qed.

(** [(x + 4) & ~3] clears the two low bits. *)
Lemma tab_mask (x : Z) :
  0 <= x < 2 ^ 32 -> Z.land x (to_size_t (Z.lnot 3)) = 4 * (x / 4).
Proof.
  intros Hx. unfold to_size_t.
  rewrite <- (Z.land_ones (Z.lnot 3) 32) by lia.
  rewrite (Z.land_comm (Z.lnot 3)), Z.land_assoc.
  rewrite (Z.land_ones x 32), (Z.mod_small x) by lia.
  rewrite <- Z.ldiff_land. change 3 with (Z.ones 2).
  rewrite Z.ldiff_ones_r by lia.
  rewrite Z.shiftl_mul_pow2, Z.shiftr_div_pow2 by lia.
  change (2 ^ 2) with 4. lia.
Qed.

(** * The loops *)

Lemma for_upto_ind {A : Type} (P : nat -> A -> Prop) (body : Z -> A -> A)
    (a : A) (n : nat) :
  P O a ->
  (forall k b, (k < n)%nat -> P k b -> P (S k) (body (Z.of_nat k) b)) ->
  P n (for_upto n body a).
Proof.
  intros H0 Hstep. induction n as [|n IH]; cbn [for_upto].
  - exact H0.
  - apply Hstep; [lia|]. apply IH. intros k b Hk. apply Hstep. lia.
Qed.

Lemma same_registers_refl (s : terminal) : same_registers s s.
Proof. repeat split. Qed.

Lemma fill_row (s0 s : terminal) (lo k y : Z) :
  0 <= k -> 0 <= y <= VGA_HEIGHT -> lo + k = y * VGA_WIDTH ->
  filled lo k (vga_entry char_space (terminal_color s0)) s0 s ->
  filled lo (k + VGA_WIDTH) (vga_entry char_space (terminal_color s0)) s0
    (for_upto (Z.to_nat VGA_WIDTH) (fun x s =>
       let index := to_size_t (y * VGA_WIDTH + x) in
       poke s index (vga_entry char_space (terminal_color s))) s).
Proof.
  intros Hk Hy Hlo Hs.
  change (k + VGA_WIDTH) with (k + Z.of_nat (Z.to_nat VGA_WIDTH)).
  apply (for_upto_ind
           (fun n s' => filled lo (k + Z.of_nat n)
                          (vga_entry char_space (terminal_color s0)) s0 s')).
  - now rewrite Z.add_0_r.
  - intros n b Hn [Hreg Hbuf]. split; [exact Hreg|].
    intros j. cbn [poke set_buffer terminal_buffer terminal_color].
    unfold store. rewrite to_size_t_small by (geometry; lia).
    destruct Hreg as (_ & _ & -> & _).
    rewrite Hbuf. geometry. zbool; try lia; reflexivity.
Qed.

Lemma shift_row (s0 s : terminal) (y : Z) :
  0 <= y < VGA_HEIGHT - 1 ->
  shifted (y * VGA_WIDTH) s0 s ->
  shifted (y * VGA_WIDTH + VGA_WIDTH) s0
    (for_upto (Z.to_nat VGA_WIDTH) (fun x s =>
       let src_index := to_size_t ((y + 1) * VGA_WIDTH + x) in
       let dest_index := to_size_t (y * VGA_WIDTH + x) in
       poke s dest_index (terminal_buffer s src_index)) s).
Proof.
  intros Hy Hs.
  change (y * VGA_WIDTH + VGA_WIDTH)
    with (y * VGA_WIDTH + Z.of_nat (Z.to_nat VGA_WIDTH)).
  apply (for_upto_ind
           (fun n s' => shifted (y * VGA_WIDTH + Z.of_nat n) s0 s')).
  - now rewrite Z.add_0_r.
  - intros n b Hn [Hreg Hbuf]. split; [exact Hreg|].
    intros j. cbn [poke set_buffer terminal_buffer]. unfold store.
    rewrite !to_size_t_small by (geometry; lia).
    rewrite !Hbuf. geometry. zbool; try lia; try reflexivity.
    subst j. f_equal. lia.
Qed.

Lemma scroll_copy_loop (s : terminal) :
  shifted ((VGA_HEIGHT - 1) * VGA_WIDTH) s
    (for_upto (Z.to_nat (VGA_HEIGHT - 1)) (fun y s =>
      for_upto (Z.to_nat VGA_WIDTH) (fun x s =>
        let src_index := to_size_t ((y + 1) * VGA_WIDTH + x) in
        let dest_index := to_size_t (y * VGA_WIDTH + x) in
        poke s dest_index (terminal_buffer s src_index)) s) s).
Proof.
  change (VGA_HEIGHT - 1) with (Z.of_nat (Z.to_nat (VGA_HEIGHT - 1))) at 1.
  apply (for_upto_ind (fun n s' => shifted (Z.of_nat n * VGA_WIDTH) s s')).
  - split; [apply same_registers_refl|]. intros j. zbool; try lia; reflexivity.
  - intros n b Hn Hb.
    replace (Z.of_nat (S n) * VGA_WIDTH)
      with (Z.of_nat n * VGA_WIDTH + VGA_WIDTH) by lia.
    apply shift_row; [geometry; lia | exact Hb].
Qed.

(** What [terminal_scroll] leaves in memory, cell by cell, and in the
    other variables. *)
Lemma terminal_scroll_spec (s : terminal) :
  same_registers s (terminal_scroll s) /\
  forall j,
    terminal_buffer (terminal_scroll s) j =
      if (0 <=? j) && (j <? (VGA_HEIGHT - 1) * VGA_WIDTH) then
        terminal_buffer s (j + VGA_WIDTH)
      else if (0 <=? j) && (j <? VGA_HEIGHT * VGA_WIDTH) then
        vga_entry char_space (terminal_color s)
      else terminal_buffer s j.
Proof.
  unfold terminal_scroll.
  pose proof (scroll_copy_loop s) as Hcopy.
  set (s1 := for_upto (Z.to_nat (VGA_HEIGHT - 1)) _ s) in *.
  destruct Hcopy as [Hreg1 Hbuf1].
  assert (Hfill : filled ((VGA_HEIGHT - 1) * VGA_WIDTH) (0 + VGA_WIDTH)
                    (vga_entry char_space (terminal_color s1)) s1
                    (for_upto (Z.to_nat VGA_WIDTH) (fun x s =>
                       let index :=
                         to_size_t ((VGA_HEIGHT - 1) * VGA_WIDTH + x) in
                       poke s index
                         (vga_entry char_space (terminal_color s))) s1)).
  { apply fill_row; [lia | geometry; lia | lia |].
    split; [apply same_registers_refl|].
    intros j. geometry. zbool; try lia; reflexivity. }
  destruct Hfill as [Hreg2 Hbuf2].
  cbv zeta. split.
  - unfold same_registers in *. intuition congruence.
  - intros j. rewrite Hbuf2, Hbuf1.
    destruct Hreg1 as (_ & _ & -> & _).
    geometry. zbool; try lia; reflexivity.
Qed.

Lemma initialize_fill_loop (s : terminal) :
  filled 0 (VGA_HEIGHT * VGA_WIDTH)
    (vga_entry char_space (terminal_color s)) s
    (for_upto (Z.to_nat VGA_HEIGHT) (fun y s =>
      for_upto (Z.to_nat VGA_WIDTH) (fun x s =>
        let index := to_size_t (y * VGA_WIDTH + x) in
        poke s index (vga_entry char_space (terminal_color s))) s) s).
Proof.
  change VGA_HEIGHT with (Z.of_nat (Z.to_nat VGA_HEIGHT)) at 1.
  apply (for_upto_ind
           (fun n s' => filled 0 (Z.of_nat n * VGA_WIDTH)
                          (vga_entry char_space (terminal_color s)) s s')).
  - split; [apply same_registers_refl|]. intros j. zbool; try lia; reflexivity.
  - intros n b Hn Hb.
    replace (Z.of_nat (S n) * VGA_WIDTH)
      with (Z.of_nat n * VGA_WIDTH + VGA_WIDTH) by lia.
    apply fill_row; [geometry; lia | geometry; lia | lia | exact Hb].
Qed.

(** * The cursor registers *)

Lemma terminal_update_cursor_spec (s : terminal) (x y : Z) :
  terminal_update_cursor s x y =
    mkTerminal (terminal_row s) (terminal_column s) (terminal_color s)
      (terminal_buffer s)
      (outb_log s ++ cursor_writes ((y * VGA_WIDTH + x) mod 2 ^ 16)).
Proof.
  unfold terminal_update_cursor. rewrite to_uint16_of_size_t.
  assert (Hp : 0 <= (y * VGA_WIDTH + x) mod 2 ^ 16 < 2 ^ 16)
    by (apply Z.mod_pos_bound; lia).
  rewrite (low_byte _ Hp), (high_byte _ Hp).
  unfold outb, cursor_writes. cbn [terminal_row terminal_column
    terminal_color terminal_buffer outb_log].
  now rewrite <- !app_assoc.
Qed.

(** Within the grid the programmed position is the flat position itself. *)
Lemma cursor_position_exact (x y : Z) :
  0 <= y < VGA_HEIGHT -> 0 <= x <= VGA_WIDTH ->
  (y * VGA_WIDTH + x) mod 2 ^ 16 = y * VGA_WIDTH + x.
Proof. intros Hy Hx. apply Z.mod_small. geometry. lia. Qed.

(** * terminal_initialize *)

Lemma sync_after_fill (s1 s2 : terminal) (n v : Z) :
  filled 0 n v s1 s2 ->
  let s := terminal_update_cursor s2 (terminal_column s2) (terminal_row s2) in
  terminal_row s = terminal_row s1 /\
  terminal_column s = terminal_column s1 /\
  terminal_color s = terminal_color s1 /\
  outb_log s =
    outb_log s1 ++
    cursor_writes
      ((terminal_row s1 * VGA_WIDTH + terminal_column s1) mod 2 ^ 16) /\
  forall j, terminal_buffer s j =
            if (0 <=? j) && (j <? 0 + n) then v else terminal_buffer s1 j.
Proof.
  intros [(Hr & Hc & Ha & Hl) Hbuf] s. subst s.
  rewrite terminal_update_cursor_spec.
  cbn [terminal_row terminal_column terminal_color terminal_buffer outb_log].
  rewrite Hr, Hc, Hl. auto.
Qed.

Lemma terminal_initialize_spec (s0 : terminal) :
  let s := terminal_initialize s0 in
  terminal_row s = 0 /\ terminal_column s = 0 /\
  terminal_color s = default_color /\
  outb_log s = outb_log s0 ++ cursor_writes 0 /\
  forall j, terminal_buffer s j =
            if (0 <=? j) && (j <? VGA_HEIGHT * VGA_WIDTH)
            then vga_entry char_space default_color
            else terminal_buffer s0 j.
Proof.
  exact (sync_after_fill _ _ _ _
           (initialize_fill_loop
              (mkTerminal 0 0 default_color (terminal_buffer s0)
                          (outb_log s0)))).
Qed.

Lemma terminal_initialize_wf (s0 : terminal) :
  wf (terminal_initialize s0) /\ in_grid (terminal_initialize s0).
Proof.
  destruct (terminal_initialize_spec s0) as (Hr & Hc & Ha & _).
  split; [split | split]; rewrite ?Hr, ?Hc, ?Ha; geometry;
    try (vm_compute; split; congruence); lia.
Qed.

(** * Reading a variable after an assignment to another *)

Lemma row_set_row s r : terminal_row (set_row s r) = r.
Proof. reflexivity. Qed.
Lemma column_set_row s r : terminal_column (set_row s r) = terminal_column s.
Proof. reflexivity. Qed.
Lemma color_set_row s r : terminal_color (set_row s r) = terminal_color s.
Proof. reflexivity. Qed.
Lemma buffer_set_row s r : terminal_buffer (set_row s r) = terminal_buffer s.
Proof. reflexivity. Qed.
Lemma log_set_row s r : outb_log (set_row s r) = outb_log s.
Proof. reflexivity. Qed.

Lemma row_set_column s c : terminal_row (set_column s c) = terminal_row s.
Proof. reflexivity. Qed.
Lemma column_set_column s c : terminal_column (set_column s c) = c.
Proof. reflexivity. Qed.
Lemma color_set_column s c :
  terminal_color (set_column s c) = terminal_color s.
Proof. reflexivity. Qed.
Lemma buffer_set_column s c :
  terminal_buffer (set_column s c) = terminal_buffer s.
Proof. reflexivity. Qed.
Lemma log_set_column s c : outb_log (set_column s c) = outb_log s.
Proof. reflexivity. Qed.

Lemma row_poke s i v : terminal_row (poke s i v) = terminal_row s.
Proof. reflexivity. Qed.
Lemma column_poke s i v : terminal_column (poke s i v) = terminal_column s.
Proof. reflexivity. Qed.
Lemma color_poke s i v : terminal_color (poke s i v) = terminal_color s.
Proof. reflexivity. Qed.
Lemma buffer_poke s i v :
  terminal_buffer (poke s i v) = store (terminal_buffer s) i v.
Proof. reflexivity. Qed.
Lemma log_poke s i v : outb_log (poke s i v) = outb_log s.
Proof. reflexivity. Qed.

Lemma row_update_cursor s x y :
  terminal_row (terminal_update_cursor s x y) = terminal_row s.
Proof. reflexivity. Qed.
Lemma column_update_cursor s x y :
  terminal_column (terminal_update_cursor s x y) = terminal_column s.
Proof. reflexivity. Qed.
Lemma color_update_cursor s x y :
  terminal_color (terminal_update_cursor s x y) = terminal_color s.
Proof. reflexivity. Qed.
Lemma buffer_update_cursor s x y :
  terminal_buffer (terminal_update_cursor s x y) = terminal_buffer s.
Proof. reflexivity. Qed.
Lemma log_update_cursor s x y :
  outb_log (terminal_update_cursor s x y) =
    outb_log s ++ cursor_writes ((y * VGA_WIDTH + x) mod 2 ^ 16).
Proof. now rewrite terminal_update_cursor_spec. Qed.

Lemma row_scroll s : terminal_row (terminal_scroll s) = terminal_row s.
Proof. now destruct (terminal_scroll_spec s) as [(H & _) _]. Qed.
Lemma column_scroll s :
  terminal_column (terminal_scroll s) = terminal_column s.
Proof. now destruct (terminal_scroll_spec s) as [(_ & H & _) _]. Qed.
Lemma color_scroll s : terminal_color (terminal_scroll s) = terminal_color s.
Proof. now destruct (terminal_scroll_spec s) as [(_ & _ & H & _) _]. Qed.
Lemma log_scroll s : outb_log (terminal_scroll s) = outb_log s.
Proof. now destruct (terminal_scroll_spec s) as [(_ & _ & _ & H) _]. Qed.

#[global] Opaque terminal_scroll terminal_initialize terminal_update_cursor.

Create Rewrite HintDb vars.
#[global] Hint Rewrite
  row_set_row column_set_row color_set_row buffer_set_row log_set_row
  row_set_column column_set_column color_set_column buffer_set_column
  log_set_column
  row_poke column_poke color_poke buffer_poke log_poke
  row_update_cursor column_update_cursor color_update_cursor
  buffer_update_cursor log_update_cursor
  row_scroll column_scroll color_scroll log_scroll : vars.

Ltac vars := autorewrite with vars in *.

(** * The row advance shared by the branches of terminal_putchar *)

(** Scrolling reads the buffer and the colour only. *)
Lemma terminal_scroll_buffer_ext (s s' : terminal) :
  terminal_color s = terminal_color s' ->
  (forall j, terminal_buffer s j = terminal_buffer s' j) ->
  forall j, terminal_buffer (terminal_scroll s) j =
            terminal_buffer (terminal_scroll s') j.
Proof.
  intros Ha Hb j.
  destruct (terminal_scroll_spec s) as [_ ->].
  destruct (terminal_scroll_spec s') as [_ ->].
  now rewrite Ha, !Hb.
Qed.

Lemma advance_row_registers (s : terminal) :
  terminal_column (advance_row s) = terminal_column s /\
  terminal_color (advance_row s) = terminal_color s /\
  outb_log (advance_row s) = outb_log s.
Proof.
  unfold advance_row. cbv zeta. destruct (_ =? _); vars; auto.
Qed.

Lemma size_t_succ_eqb (r k : Z) :
  0 <= r < 2 ^ 32 -> 0 < k < 2 ^ 32 ->
  (to_size_t (r + 1) =? k) = (r + 1 =? k).
Proof.
  intros Hr Hk. unfold to_size_t.
  destruct (Z.eq_dec (r + 1) (2 ^ 32)) as [E|E].
  - rewrite E, Z.mod_same by lia.
    destruct (Z.eqb_spec 0 k), (Z.eqb_spec (2 ^ 32) k); lia.
  - now rewrite Z.mod_small by lia.
Qed.

Lemma size_t_succ_is_height (r : Z) :
  0 <= r < 2 ^ 32 -> (to_size_t (r + 1) =? VGA_HEIGHT) = (r + 1 =? VGA_HEIGHT).
Proof. intros Hr. apply size_t_succ_eqb; [exact Hr | geometry; lia]. Qed.

Lemma advance_row_no_scroll (s : terminal) :
  0 <= terminal_row s < 2 ^ 32 -> terminal_row s + 1 <> VGA_HEIGHT ->
  advance_row s = set_row s (to_size_t (terminal_row s + 1)).
Proof.
  intros Hr Hne. unfold advance_row. cbv zeta.
  rewrite row_set_row, size_t_succ_is_height by exact Hr.
  now destruct (Z.eqb_spec (terminal_row s + 1) VGA_HEIGHT).
Qed.

Lemma advance_row_scroll (s : terminal) :
  terminal_row s + 1 = VGA_HEIGHT ->
  terminal_row (advance_row s) = VGA_HEIGHT - 1 /\
  forall j, terminal_buffer (advance_row s) j =
            terminal_buffer (terminal_scroll s) j.
Proof.
  intros E. unfold advance_row. cbv zeta.
  rewrite row_set_row, E.
  replace (to_size_t VGA_HEIGHT =? VGA_HEIGHT) with true by reflexivity.
  vars. split; [reflexivity|].
  intros j. apply terminal_scroll_buffer_ext; now vars.
Qed.

(** * The final synchronisation *)

Lemma row_sync_cursor s : terminal_row (sync_cursor s) = terminal_row s.
Proof. reflexivity. Qed.
Lemma column_sync_cursor s :
  terminal_column (sync_cursor s) = terminal_column s.
Proof. reflexivity. Qed.
Lemma color_sync_cursor s : terminal_color (sync_cursor s) = terminal_color s.
Proof. reflexivity. Qed.
Lemma buffer_sync_cursor s :
  terminal_buffer (sync_cursor s) = terminal_buffer s.
Proof. reflexivity. Qed.
Lemma log_sync_cursor s :
  outb_log (sync_cursor s) =
    outb_log s ++
    cursor_writes
      ((terminal_row (sync_cursor s) * VGA_WIDTH +
        terminal_column (sync_cursor s)) mod 2 ^ 16).
Proof. unfold sync_cursor. now vars. Qed.

#[global] Opaque sync_cursor.
#[global] Hint Rewrite row_sync_cursor column_sync_cursor color_sync_cursor
  buffer_sync_cursor : vars.

(** * terminal_putchar, branch by branch *)

Lemma putchar_newline_eq (s : terminal) :
  terminal_putchar s char_newline = sync_cursor (advance_row (set_column s 0)).
Proof. reflexivity. Qed.

Lemma putchar_tab_eq (s : terminal) :
  terminal_putchar s char_tab =
    let s := set_column s
               (Z.land (to_size_t (terminal_column s + 4))
                       (to_size_t (Z.lnot 3))) in
    if VGA_WIDTH <=? terminal_column s then
      sync_cursor (advance_row (set_column s 0))
    else sync_cursor s.
Proof. reflexivity. Qed.

Lemma putchar_backspace_eq (s : terminal) :
  terminal_putchar s char_backspace =
    if (terminal_row s =? 0) && (terminal_column s =? 0) then s
    else if 0 <? terminal_column s then
      let s := set_column s (to_size_t (terminal_column s - 1)) in
      let index :=
        to_size_t (terminal_row s * VGA_WIDTH + terminal_column s) in
      sync_cursor (poke s index (vga_entry char_space (terminal_color s)))
    else
      let s := set_row s (to_size_t (terminal_row s - 1)) in
      let s := set_column s VGA_WIDTH in
      let index :=
        to_size_t (terminal_row s * VGA_WIDTH + terminal_column s) in
      sync_cursor (poke s index (vga_entry char_space (terminal_color s))).
Proof. reflexivity. Qed.

Lemma putchar_regular_eq (s : terminal) (c : Z) :
  regular c ->
  terminal_putchar s c =
    let index :=
      to_size_t (terminal_row s * VGA_WIDTH + terminal_column s) in
    let s := poke s index (vga_entry c (terminal_color s)) in
    let s := set_column s (to_size_t (terminal_column s + 1)) in
    if terminal_column s =? VGA_WIDTH then
      sync_cursor (advance_row (set_column s 0))
    else sync_cursor s.
Proof.
  intros (Hn & Ht & Hb). unfold terminal_putchar.
  destruct (Z.eqb_spec c char_newline); [contradiction|].
  destruct (Z.eqb_spec c char_tab); [contradiction|].
  destruct (Z.eqb_spec c char_backspace); [contradiction|].
  reflexivity.
Qed.

(** Backspace at the origin returns at once. *)
Lemma putchar_backspace_origin (s : terminal) :
  terminal_row s = 0 -> terminal_column s = 0 ->
  terminal_putchar s char_backspace = s.
Proof. intros Hr Hc. now rewrite putchar_backspace_eq, Hr, Hc. Qed.

(** Backspace in column 0 below the first row: the row goes back by one,
    the column is set to [VGA_WIDTH], and the blank is stored at the flat
    index of that pair, which is the first cell of the row just left. *)
Lemma putchar_backspace_row_start (s : terminal) :
  wf s -> terminal_column s = 0 -> 0 < terminal_row s ->
  let s' := terminal_putchar s char_backspace in
  terminal_row s' = terminal_row s - 1 /\
  terminal_column s' = VGA_WIDTH /\
  terminal_buffer s' =
    store (terminal_buffer s) (to_size_t (terminal_row s * VGA_WIDTH))
          (vga_entry char_space (terminal_color s)).
Proof.
  intros [Hr _ _] Hc Hpos. cbv zeta. rewrite putchar_backspace_eq, Hc.
  destruct (Z.eqb_spec (terminal_row s) 0) as [E|_]; [lia|].
  cbn [andb]. replace (0 <? 0) with false by reflexivity. cbv zeta.
  vars. rewrite (to_size_t_small (terminal_row s - 1)) by lia.
  repeat split. f_equal. f_equal. geometry. lia.
Qed.

(** * Scrolling *)

(** C6. For every state, after [terminal_scroll] each row [y] above the
    last one holds what row [y+1] held before, the last row holds blanks
    packed with the colour current at the call, and the cursor row and
    column are what they were. *)
Theorem scroll_moves_rows_up (s : terminal) (x y : Z) :
  0 <= x < VGA_WIDTH ->
  (0 <= y < VGA_HEIGHT - 1 ->
     cell (terminal_scroll s) x y = cell s x (y + 1)) /\
  cell (terminal_scroll s) x (VGA_HEIGHT - 1) =
    vga_entry char_space (terminal_color s) /\
  terminal_row (terminal_scroll s) = terminal_row s /\
  terminal_column (terminal_scroll s) = terminal_column s.
Proof.
  intros Hx. destruct (terminal_scroll_spec s) as [(Hr & Hc & _) Hbuf].
  unfold cell. repeat split; auto.
  - intros Hy. rewrite Hbuf. geometry.
    zbool; try lia. f_equal. lia.
  - rewrite Hbuf. geometry. zbool; lia.
Qed.

Lemma scroll_moves_rows_up_witness :
  cell (terminal_scroll two_rows_of_A) 3 1 = cell two_rows_of_A 3 2 /\
  cell (terminal_scroll two_rows_of_A) 3 (VGA_HEIGHT - 1) =
    vga_entry char_space (terminal_color two_rows_of_A).
Proof.
  assert (Hx : 0 <= 3 < VGA_WIDTH) by (geometry; lia).
  assert (Hy : 0 <= 1 < VGA_HEIGHT - 1) by (geometry; lia).
  destruct (scroll_moves_rows_up two_rows_of_A 3 1 Hx) as (H1 & H2 & _).
  split; [exact (H1 Hy) | exact H2].
Defined.

(** * Backspace in the first column *)

(** C1, evaluated.  From the cursor at row 2, column 0, with rows 0 and 1
    full of text, backspace leaves the cursor at row 1 with the column
    equal to [VGA_WIDTH], not [VGA_WIDTH - 1]; the last cell of row 1
    keeps its letter, and the blank is stored in the first cell of
    row 2. *)
Theorem backspace_at_row_start_overshoots :
  let s := two_rows_of_A in
  let s' := terminal_putchar s char_backspace in
  (terminal_row s = 2 /\ terminal_column s = 0) /\
  terminal_row s' = 1 /\
  terminal_column s' = VGA_WIDTH /\
  cell s' (VGA_WIDTH - 1) 1 = vga_entry 65 (terminal_color s) /\
  cell s' (VGA_WIDTH - 1) 1 <> vga_entry char_space (terminal_color s) /\
  terminal_buffer s' =
    store (terminal_buffer s) (2 * VGA_WIDTH + 0)
          (vga_entry char_space (terminal_color s)).
Proof.
  cbv zeta.
  assert (Hr : terminal_row two_rows_of_A = 2) by (vm_compute; reflexivity).
  assert (Hc : terminal_column two_rows_of_A = 0) by (vm_compute; reflexivity).
  assert (Ha : terminal_color two_rows_of_A = default_color)
    by (vm_compute; reflexivity).
  assert (Hwf : wf two_rows_of_A).
  { split; rewrite ?Hr, ?Hc, ?Ha; vm_compute; split; congruence. }
  destruct (putchar_backspace_row_start two_rows_of_A Hwf Hc)
    as (Hr' & Hc' & Hb').
  { rewrite Hr. lia. }
  rewrite Hr', Hc', Hr. unfold cell. rewrite Hb', Hr.
  repeat split; try reflexivity; vm_compute; congruence.
Qed.

(** * The cursor bounds *)

(** C2, evaluated.  Newline, backspace, then a letter, from the
    initialized screen: the letter is stored in row 1 while the cursor is
    in row 0, and the column becomes [VGA_WIDTH + 1].  The column then
    grows with each further letter and the row never advances: after
    1921 letters the store goes to the flat index [VGA_WIDTH * VGA_HEIGHT],
    outside the grid. *)
Theorem backspace_breaks_cursor_bounds :
  let s0 := terminal_initialize power_on in
  let s := terminal_write s0 [char_newline; char_backspace; 120] in
  let t := terminal_write s0
             ([char_newline; char_backspace] ++ repeat 120 1921) in
  (terminal_row s = 0 /\ terminal_column s = VGA_WIDTH + 1 /\
   cell s 0 1 = vga_entry 120 (terminal_color s)) /\
  (terminal_row t = 0 /\ terminal_column t = VGA_WIDTH * VGA_HEIGHT + 1 /\
   terminal_buffer s0 (VGA_WIDTH * VGA_HEIGHT) = 0 /\
   terminal_buffer t (VGA_WIDTH * VGA_HEIGHT) =
     vga_entry 120 (terminal_color t)).
Proof. vm_compute. repeat split; reflexivity. Qed.

(** * Synchronisation of the hardware cursor *)

Lemma log_advance_row (s : terminal) : outb_log (advance_row s) = outb_log s.
Proof. apply advance_row_registers. Qed.

Lemma color_advance_row (s : terminal) :
  terminal_color (advance_row s) = terminal_color s.
Proof. apply advance_row_registers. Qed.

Lemma column_advance_row (s : terminal) :
  terminal_column (advance_row s) = terminal_column s.
Proof. apply advance_row_registers. Qed.

#[global] Hint Rewrite log_advance_row color_advance_row column_advance_row
  : vars.

(** Except for backspace at the origin, [terminal_putchar] ends with
    [sync_cursor], and nothing before it writes to a port. *)
Lemma putchar_ends_with_sync (s : terminal) (c : Z) :
  ~ (c = char_backspace /\ terminal_row s = 0 /\ terminal_column s = 0) ->
  exists s1, terminal_putchar s c = sync_cursor s1 /\
             outb_log s1 = outb_log s /\
             terminal_color s1 = terminal_color s.
Proof.
  intros Hnot. unfold terminal_putchar.
  destruct (Z.eqb_spec c char_newline) as [_|_].
  { eexists; split; [reflexivity | now vars]. }
  destruct (Z.eqb_spec c char_tab) as [_|_].
  { cbv zeta. destruct (_ <=? _); eexists; (split; [reflexivity | now vars]). }
  destruct (Z.eqb_spec c char_backspace) as [Hc|_].
  { destruct (Z.eqb_spec (terminal_row s) 0) as [Hr|_];
      [destruct (Z.eqb_spec (terminal_column s) 0) as [Hk|_]|];
      cbn [andb]; [tauto | |];
      destruct (0 <? _); eexists; (split; [reflexivity | now vars]). }
  cbv zeta. destruct (_ =? _); eexists; (split; [reflexivity | now vars]).
Qed.

(** C3, as the code has it.  Every call of [terminal_putchar] other than
    backspace with the cursor at row 0, column 0 ends with the four port
    writes of [terminal_update_cursor] (index 0x0F, low byte, index 0x0E,
    high byte) for the flat position row * VGA_WIDTH + column of the state
    after the call, taken in 16 bits; backspace at the origin returns
    before that and leaves the whole state, port log included, as it
    was. *)
Theorem putchar_syncs_cursor (s : terminal) (c : Z) :
  let s' := terminal_putchar s c in
  (~ (c = char_backspace /\ terminal_row s = 0 /\ terminal_column s = 0) ->
   outb_log s' =
     outb_log s ++
     cursor_writes
       ((terminal_row s' * VGA_WIDTH + terminal_column s') mod 2 ^ 16)) /\
  (c = char_backspace /\ terminal_row s = 0 /\ terminal_column s = 0 ->
   s' = s).
Proof.
  cbv zeta. split.
  - intros Hnot.
    destruct (putchar_ends_with_sync s c Hnot) as (s1 & -> & Hlog & _).
    now rewrite log_sync_cursor, Hlog.
  - intros (-> & Hr & Hc). now apply putchar_backspace_origin.
Qed.

Lemma putchar_syncs_cursor_witness :
  outb_log (terminal_putchar two_rows_of_A 66) =
    outb_log two_rows_of_A ++ cursor_writes (2 * VGA_WIDTH + 1) /\
  terminal_putchar (terminal_initialize power_on) char_backspace =
    terminal_initialize power_on.
Proof.
  split.
  - refine (proj1 (putchar_syncs_cursor two_rows_of_A 66) _).
    intros (H & _). vm_compute in H. discriminate H.
  - refine (proj2 (putchar_syncs_cursor (terminal_initialize power_on)
                     char_backspace) _).
    repeat split; vm_compute; reflexivity.
Defined.

(** C3, as stated, fails: backspace on the freshly initialized screen
    performs no port write at all. *)
Lemma backspace_at_origin_skips_sync :
  let s := terminal_initialize power_on in
  let s' := terminal_putchar s char_backspace in
  outb_log s' = outb_log s /\
  outb_log s' <>
    outb_log s ++
    cursor_writes
      ((terminal_row s' * VGA_WIDTH + terminal_column s') mod 2 ^ 16).
Proof.
  vm_compute. split; [reflexivity | discriminate].
Qed.

(** * Newline *)

Lemma putchar_newline_spec (s : terminal) :
  0 <= terminal_row s < 2 ^ 32 ->
  let s' := terminal_putchar s char_newline in
  terminal_column s' = 0 /\
  terminal_color s' = terminal_color s /\
  (terminal_row s + 1 <> VGA_HEIGHT ->
   terminal_row s' = to_size_t (terminal_row s + 1) /\
   terminal_buffer s' = terminal_buffer s) /\
  (terminal_row s + 1 = VGA_HEIGHT ->
   terminal_row s' = VGA_HEIGHT - 1 /\
   forall j, terminal_buffer s' j = terminal_buffer (terminal_scroll s) j).
Proof.
  intros Hr. cbv zeta. rewrite putchar_newline_eq. vars.
  repeat split.
  - rewrite advance_row_no_scroll by (vars; assumption). now vars.
  - rewrite advance_row_no_scroll by (vars; assumption). now vars.
  - apply advance_row_scroll. now vars.
  - intros j. destruct (advance_row_scroll (set_column s 0)) as [_ Hb];
      [now vars|].
    rewrite Hb. apply terminal_scroll_buffer_ext; now vars.
Qed.

Lemma terminal_write_app (s : terminal) (a b : list Z) :
  terminal_write s (a ++ b) = terminal_write (terminal_write s a) b.
Proof. apply fold_left_app. Qed.

Lemma terminal_write_nil (s : terminal) : terminal_write s [] = s.
Proof. reflexivity. Qed.

Lemma terminal_write_cons (s : terminal) (c : Z) (data : list Z) :
  terminal_write s (c :: data) = terminal_write (terminal_putchar s c) data.
Proof. reflexivity. Qed.

(** [n] newlines that stay above the last row only move the cursor down. *)
Lemma newlines_above_last_row (n : nat) (s : terminal) :
  0 <= terminal_row s -> terminal_row s + Z.of_nat n < VGA_HEIGHT ->
  terminal_column s = 0 ->
  let s' := terminal_write s (repeat char_newline n) in
  terminal_row s' = terminal_row s + Z.of_nat n /\
  terminal_column s' = 0 /\
  terminal_color s' = terminal_color s /\
  terminal_buffer s' = terminal_buffer s.
Proof.
  revert s. induction n as [|n IH]; intros s Hr Hn Hc; cbv zeta.
  - cbn [repeat]. unfold terminal_write. cbn [fold_left].
    repeat split; auto. lia.
  - cbn [repeat]. rewrite terminal_write_cons.
    destruct (putchar_newline_spec s) as (Hc1 & Ha1 & Hstay & _);
      [geometry; lia|].
    destruct Hstay as [Hr1 Hb1]; [lia|].
    rewrite to_size_t_small in Hr1 by (geometry; lia).
    destruct (IH (terminal_putchar s char_newline)) as (Hr2 & Hc2 & Ha2 & Hb2);
      [lia | lia | exact Hc1 |].
    rewrite Hr2, Hc2, Ha2, Hb2, Hr1, Ha1, Hb1. repeat split. lia.
Qed.

(** C5. A newline sets the column to 0 and moves to the next row; on the
    last row it scrolls instead and the row stays [VGA_HEIGHT - 1].  So
    [VGA_HEIGHT] newlines written to the initialized screen leave the
    cursor on row [VGA_HEIGHT - 1], column 0, and the rows above it
    blank. *)
Theorem newline_advances_and_pins :
  (forall s : terminal,
     0 <= terminal_row s < VGA_HEIGHT ->
     let s' := terminal_putchar s char_newline in
     terminal_column s' = 0 /\
     (terminal_row s + 1 < VGA_HEIGHT ->
      terminal_row s' = terminal_row s + 1 /\
      terminal_buffer s' = terminal_buffer s) /\
     (terminal_row s + 1 = VGA_HEIGHT ->
      terminal_row s' = VGA_HEIGHT - 1 /\
      forall j, terminal_buffer s' j =
                terminal_buffer (terminal_scroll s) j)) /\
  (forall (s0 : terminal) (x y : Z),
     0 <= x < VGA_WIDTH -> 0 <= y < VGA_HEIGHT - 1 ->
     let s := terminal_write (terminal_initialize s0)
                (repeat char_newline (Z.to_nat VGA_HEIGHT)) in
     terminal_row s = VGA_HEIGHT - 1 /\
     terminal_column s = 0 /\
     cell s x y = vga_entry char_space (terminal_color s)).
Proof.
  split.
  - intros s Hr. cbv zeta.
    destruct (putchar_newline_spec s) as (Hc & _ & Hstay & Hscroll);
      [geometry; lia|].
    repeat split; auto.
    + destruct Hstay as [Hrow _]; [lia|]. rewrite Hrow.
      apply to_size_t_small. geometry. lia.
    + apply Hstay. lia.
    + now apply Hscroll.
    + now apply Hscroll.
  - intros s0 x y Hx Hy. cbv zeta.
    change (Z.to_nat VGA_HEIGHT) with (24 + 1)%nat.
    rewrite repeat_app, terminal_write_app.
    destruct (terminal_initialize_spec s0) as (Hr0 & Hc0 & Ha0 & _ & Hb0).
    destruct (newlines_above_last_row 24 (terminal_initialize s0))
      as (Hr1 & Hc1 & Ha1 & Hb1);
      [rewrite Hr0; lia | rewrite Hr0; geometry; lia | exact Hc0 |].
    set (s1 := terminal_write (terminal_initialize s0)
                 (repeat char_newline 24)) in *.
    cbn [repeat]. rewrite terminal_write_cons, terminal_write_nil.
    destruct (putchar_newline_spec s1) as (Hc2 & Ha2 & _ & Hscroll);
      [rewrite Hr1, Hr0; lia|].
    destruct Hscroll as [Hr2 Hb2]; [rewrite Hr1, Hr0; reflexivity|].
    repeat split; auto.
    unfold cell. rewrite Hb2, Ha2.
    destruct (terminal_scroll_spec s1) as [_ ->].
    rewrite Hb1, Ha1, Ha0, !Hb0. geometry. zbool; lia.
Qed.

Lemma newline_advances_and_pins_witness :
  (terminal_column (terminal_putchar two_rows_of_A char_newline) = 0 /\
   terminal_row (terminal_putchar two_rows_of_A char_newline) = 2 + 1) /\
  cell (terminal_write (terminal_initialize power_on)
          (repeat char_newline (Z.to_nat VGA_HEIGHT))) 3 5 =
    vga_entry char_space default_color.
Proof.
  destruct newline_advances_and_pins as [Hstep Hrun]. split.
  - assert (Hr : 0 <= terminal_row two_rows_of_A < VGA_HEIGHT)
      by (vm_compute; split; congruence).
    destruct (Hstep two_rows_of_A Hr) as (Hc & Hstay & _).
    split; [exact Hc|]. apply Hstay. vm_compute. reflexivity.
  - assert (Hx : 0 <= 3 < VGA_WIDTH) by (geometry; lia).
    assert (Hy : 0 <= 5 < VGA_HEIGHT - 1) by (geometry; lia).
    destruct (Hrun power_on 3 5 Hx Hy) as (_ & _ & Hcell). exact Hcell.
Defined.

(** * Regular characters *)

Lemma putchar_regular_spec (s : terminal) (c : Z) :
  regular c ->
  0 <= terminal_row s < 2 ^ 32 -> 0 <= terminal_column s < 2 ^ 32 ->
  ~ (terminal_column s + 1 = VGA_WIDTH /\ terminal_row s + 1 = VGA_HEIGHT) ->
  let s' := terminal_putchar s c in
  terminal_color s' = terminal_color s /\
  terminal_buffer s' =
    store (terminal_buffer s)
          (to_size_t (terminal_row s * VGA_WIDTH + terminal_column s))
          (vga_entry c (terminal_color s)) /\
  (terminal_column s + 1 = VGA_WIDTH ->
   terminal_column s' = 0 /\
   terminal_row s' = to_size_t (terminal_row s + 1)) /\
  (terminal_column s + 1 <> VGA_WIDTH ->
   terminal_column s' = to_size_t (terminal_column s + 1) /\
   terminal_row s' = terminal_row s).
Proof.
  intros Hreg Hr Hc Hno. cbv zeta. rewrite (putchar_regular_eq s c Hreg).
  cbv zeta. vars.
  rewrite size_t_succ_eqb by (geometry; lia).
  destruct (Z.eqb_spec (terminal_column s + 1) VGA_WIDTH) as [E|E].
  - rewrite advance_row_no_scroll by (vars; tauto || assumption).
    vars. repeat split; auto; contradiction.
  - vars. repeat split; auto; contradiction.
Qed.

(** Two cells of the grid with the same flat index are the same cell. *)
Lemma flat_index_injective (x y x' y' : Z) :
  0 <= x < VGA_WIDTH -> 0 <= x' < VGA_WIDTH ->
  y * VGA_WIDTH + x = y' * VGA_WIDTH + x' -> (x, y) = (x', y').
Proof.
  intros Hx Hx' E. geometry.
  assert (y = y') by nia. subst y'. f_equal. lia.
Qed.

(** C10. A newline above the last row changes no cell and not the colour.
    With the cursor on the grid, a regular byte that causes no scroll
    stores its packed cell in the grid cell under the cursor, and changes
    no other cell of the grid and not the colour. *)
Theorem putchar_frame :
  (forall s : terminal,
     wf s -> terminal_row s + 1 < VGA_HEIGHT ->
     let s' := terminal_putchar s char_newline in
     (forall j, terminal_buffer s' j = terminal_buffer s j) /\
     terminal_color s' = terminal_color s) /\
  (forall (s : terminal) (c : Z),
     in_grid s -> regular c ->
     ~ (terminal_column s + 1 = VGA_WIDTH /\
        terminal_row s + 1 = VGA_HEIGHT) ->
     let s' := terminal_putchar s c in
     on_screen (terminal_row s * VGA_WIDTH + terminal_column s) /\
     cell s' (terminal_column s) (terminal_row s) =
       vga_entry c (terminal_color s) /\
     (forall x y, 0 <= x < VGA_WIDTH -> 0 <= y < VGA_HEIGHT ->
        (x, y) <> (terminal_column s, terminal_row s) ->
        cell s' x y = cell s x y) /\
     terminal_color s' = terminal_color s).
Proof.
  split.
  - intros s [Hr _ _] Hlt. cbv zeta.
    destruct (putchar_newline_spec s Hr) as (_ & Ha & Hstay & _).
    destruct Hstay as [_ Hb]; [lia|]. rewrite Hb. auto.
  - intros s c [Hr Hc] Hreg Hno. cbv zeta.
    destruct (putchar_regular_spec s c Hreg) as (Ha & Hb & _);
      [geometry; lia | geometry; lia | exact Hno |].
    rewrite to_size_t_small in Hb by (geometry; lia).
    unfold cell, on_screen. rewrite Hb, Ha. unfold store.
    split; [geometry; lia|]. split; [now rewrite Z.eqb_refl|].
    split; [|reflexivity].
    intros x y Hx Hy Hne.
    destruct (Z.eqb_spec (y * VGA_WIDTH + x)
                (terminal_row s * VGA_WIDTH + terminal_column s))
      as [E|_]; [|reflexivity].
    exfalso. apply Hne. now apply flat_index_injective.
Qed.

Lemma two_rows_of_A_wf : wf two_rows_of_A /\ in_grid two_rows_of_A.
Proof.
  assert (Hr : terminal_row two_rows_of_A = 2) by (vm_compute; reflexivity).
  assert (Hc : terminal_column two_rows_of_A = 0) by (vm_compute; reflexivity).
  assert (Ha : terminal_color two_rows_of_A = default_color)
    by (vm_compute; reflexivity).
  split; [split | split]; rewrite ?Hr, ?Hc, ?Ha; vm_compute; split; congruence.
Qed.

Lemma putchar_frame_witness :
  terminal_buffer (terminal_putchar two_rows_of_A char_newline) 7 =
    terminal_buffer two_rows_of_A 7 /\
  cell (terminal_putchar two_rows_of_A 66)
       (terminal_column two_rows_of_A) (terminal_row two_rows_of_A) =
    vga_entry 66 (terminal_color two_rows_of_A) /\
  cell (terminal_putchar two_rows_of_A 66) 79 1 = cell two_rows_of_A 79 1.
Proof.
  destruct putchar_frame as [Hnl Hreg].
  destruct two_rows_of_A_wf as [Hwf Hgrid].
  assert (Hlt : terminal_row two_rows_of_A + 1 < VGA_HEIGHT)
    by (vm_compute; reflexivity).
  assert (Hr66 : regular 66)
    by (unfold regular; vm_compute; repeat split; discriminate).
  assert (Hno : ~ (terminal_column two_rows_of_A + 1 = VGA_WIDTH /\
                   terminal_row two_rows_of_A + 1 = VGA_HEIGHT))
    by (intros [H _]; vm_compute in H; discriminate H).
  destruct (Hnl two_rows_of_A Hwf Hlt) as [Hsame _].
  destruct (Hreg two_rows_of_A 66 Hgrid Hr66 Hno) as (_ & Hcell & Hframe & _).
  split; [exact (Hsame 7)|]. split; [exact Hcell|].
  apply Hframe.
  - geometry. lia.
  - geometry. lia.
  - vm_compute. discriminate.
Defined.

(** * Runs of regular characters *)

Lemma write_regular_run (data : list Z) :
  forall s : terminal,
    Forall regular data -> in_grid s ->
    terminal_row s * VGA_WIDTH + terminal_column s + Z.of_nat (length data)
      < VGA_WIDTH * VGA_HEIGHT ->
    let s' := terminal_write s data in
    let p := terminal_row s * VGA_WIDTH + terminal_column s in
    in_grid s' /\
    terminal_row s' * VGA_WIDTH + terminal_column s' =
      p + Z.of_nat (length data) /\
    terminal_color s' = terminal_color s /\
    forall j, terminal_buffer s' j =
              if (p <=? j) && (j <? p + Z.of_nat (length data))
              then vga_entry (nth (Z.to_nat (j - p)) data 0) (terminal_color s)
              else terminal_buffer s j.
Proof.
  induction data as [|c rest IH]; intros s Hall Hgrid Hroom; cbv zeta.
  - rewrite terminal_write_nil. cbn [length Z.of_nat].
    repeat split; try apply Hgrid; try lia.
    intros j. zbool; lia.
  - rewrite terminal_write_cons.
    inversion Hall as [|c' rest' Hreg Hrest]; subst c' rest'.
    destruct Hgrid as [Hr Hc].
    cbn [length] in Hroom. rewrite Nat2Z.inj_succ in Hroom.
    destruct (putchar_regular_spec s c Hreg) as (Ha & Hb & Hwrap & Hnext);
      [geometry; lia | geometry; lia | geometry; lia |].
    set (s1 := terminal_putchar s c) in *.
    assert (Hpos : in_grid s1 /\
                   terminal_row s1 * VGA_WIDTH + terminal_column s1 =
                   terminal_row s * VGA_WIDTH + terminal_column s + 1).
    { unfold in_grid.
      destruct (Z.eq_dec (terminal_column s + 1) VGA_WIDTH) as [E|E].
      - destruct (Hwrap E) as [-> ->].
        rewrite to_size_t_small by (geometry; lia). geometry. lia.
      - destruct (Hnext E) as [-> ->].
        rewrite to_size_t_small by (geometry; lia). geometry. lia. }
    destruct Hpos as [Hgrid1 Hp1].
    destruct (IH s1 Hrest Hgrid1) as (Hg & Hp & Hcol & Hbuf); [lia|].
    cbn [length]. rewrite Nat2Z.inj_succ.
    repeat split; try apply Hg; try lia; try congruence.
    intros j. rewrite Hbuf, Hp1, Hb, Ha. unfold store.
    rewrite to_size_t_small by (geometry; lia).
    zbool; try lia.
    + subst j. now rewrite Z.sub_diag.
    + replace (Z.to_nat (j - (terminal_row s * VGA_WIDTH + terminal_column s)))
        with (S (Z.to_nat
                   (j - (terminal_row s * VGA_WIDTH + terminal_column s + 1))))
        by lia.
      reflexivity.
Qed.

(** C4. After fewer than VGA_WIDTH * VGA_HEIGHT regular characters have
    been written to the initialized screen, the i-th of them is found,
    packed with the colour, in column i mod VGA_WIDTH of row
    i / VGA_WIDTH, and the cursor is at column n mod VGA_WIDTH of row
    n / VGA_WIDTH, n being their number. *)
Theorem write_printable_fills_cells (s0 : terminal) (data : list Z) :
  Forall regular data ->
  Z.of_nat (length data) < VGA_WIDTH * VGA_HEIGHT ->
  let s := terminal_write (terminal_initialize s0) data in
  let n := Z.of_nat (length data) in
  (forall i, 0 <= i < n ->
     cell s (i mod VGA_WIDTH) (i / VGA_WIDTH) =
       vga_entry (nth (Z.to_nat i) data 0) (terminal_color s)) /\
  terminal_column s = n mod VGA_WIDTH /\
  terminal_row s = n / VGA_WIDTH /\
  terminal_color s = default_color.
Proof.
  intros Hall Hlen. cbv zeta.
  destruct (terminal_initialize_spec s0) as (Hr0 & Hc0 & Ha0 & _).
  destruct (terminal_initialize_wf s0) as [_ Hgrid0].
  destruct (write_regular_run data (terminal_initialize s0) Hall Hgrid0)
    as ([Hr Hc] & Hp & Ha & Hbuf); [rewrite Hr0, Hc0; lia|].
  rewrite Hr0, Hc0 in Hp, Hbuf. cbn [Z.mul Z.add] in Hp, Hbuf.
  set (s := terminal_write (terminal_initialize s0) data) in *.
  assert (Hw : 0 < VGA_WIDTH) by (geometry; lia).
  repeat split.
  - intros i Hi. unfold cell.
    replace (i / VGA_WIDTH * VGA_WIDTH + i mod VGA_WIDTH) with i
      by (rewrite (Z.div_mod i VGA_WIDTH) at 1; lia).
    rewrite Hbuf, Ha, Z.sub_0_r. zbool; lia.
  - apply Z.mod_unique_pos with (q := terminal_row s); lia.
  - apply Z.div_unique_pos with (r := terminal_column s); lia.
  - now rewrite Ha.
Qed.

Lemma write_printable_fills_cells_witness :
  cell (terminal_write (terminal_initialize power_on) (repeat 65 160))
       (159 mod VGA_WIDTH) (159 / VGA_WIDTH) =
    vga_entry 65 default_color /\
  terminal_column (terminal_write (terminal_initialize power_on)
                     (repeat 65 160)) = 160 mod VGA_WIDTH.
Proof.
  assert (Hall : Forall regular (repeat 65 160)).
  { apply Forall_forall. intros c Hc. apply repeat_spec in Hc. subst c.
    unfold regular. vm_compute. repeat split; discriminate. }
  assert (Hlen : Z.of_nat (length (repeat 65 160)) < VGA_WIDTH * VGA_HEIGHT)
    by (vm_compute; reflexivity).
  destruct (write_printable_fills_cells power_on (repeat 65 160) Hall Hlen)
    as (Hcells & Hcol & _ & Ha).
  split.
  - rewrite <- Ha. apply (Hcells 159). vm_compute. split; congruence.
  - exact Hcol.
Defined.

(** * Tab *)

Lemma tab_stop_after (col : Z) :
  0 <= col < 2 ^ 32 - 4 ->
  Z.land (to_size_t (col + 4)) (to_size_t (Z.lnot 3)) = 4 * (col / 4) + 4.
Proof.
  intros Hcol. rewrite (to_size_t_small (col + 4)) by lia.
  rewrite tab_mask by lia.
  replace (col + 4) with (col + 1 * 4) by lia.
  rewrite Z.div_add by lia. lia.
Qed.

Lemma tab_stop_bounds (col : Z) :
  let stop := 4 * (col / 4) + 4 in
  col < stop <= col + 4 /\ stop mod 4 = 0.
Proof.
  cbv zeta. pose proof (Z.div_mod col 4 ltac:(lia)) as Hdm.
  pose proof (Z.mod_pos_bound col 4 ltac:(lia)) as Hm.
  split; [lia|].
  replace (4 * (col / 4) + 4) with ((col / 4 + 1) * 4) by lia.
  apply Z.mod_mul. lia.
Qed.

Lemma row_advance_row (s : terminal) :
  terminal_row (advance_row s) =
    if to_size_t (terminal_row s + 1) =? VGA_HEIGHT then VGA_HEIGHT - 1
    else to_size_t (terminal_row s + 1).
Proof.
  unfold advance_row. cbv zeta. rewrite row_set_row.
  destruct (_ =? _); now vars.
Qed.



(** * The cursor stays on the grid, the faulty branch apart *)

Lemma advance_row_on_grid (s : terminal) :
  0 <= terminal_row s < VGA_HEIGHT ->
  0 <= terminal_row (advance_row s) < VGA_HEIGHT.
Proof.
  intros Hr. rewrite row_advance_row.
  rewrite to_size_t_small by (geometry; lia).
  geometry. zbool; lia.
Qed.

(** Every call that does not take the branch of backspace in column 0
    below the first row leaves the cursor on the grid. *)
Lemma putchar_keeps_cursor_on_grid (s : terminal) (c : Z) :
  in_grid s ->
  ~ (c = char_backspace /\ terminal_column s = 0 /\ 0 < terminal_row s) ->
  in_grid (terminal_putchar s c).
Proof.
  intros [Hr Hc] Hnot. unfold in_grid.
  destruct (Z.eq_dec c char_newline) as [->|Hn].
  { rewrite putchar_newline_eq. vars. split; [|geometry; lia].
    apply advance_row_on_grid. now vars. }
  destruct (Z.eq_dec c char_tab) as [->|Ht].
  { pose proof (tab_stop_bounds (terminal_column s)) as Hstop.
    cbv zeta in Hstop.
    rewrite putchar_tab_eq. cbv zeta. rewrite column_set_column.
    rewrite tab_stop_after by (geometry; lia).
    destruct (Z.leb_spec VGA_WIDTH (4 * (terminal_column s / 4) + 4)); vars.
    - split; [|geometry; lia]. apply advance_row_on_grid. now vars.
    - split; [assumption | lia]. }
  destruct (Z.eq_dec c char_backspace) as [->|Hb].
  { rewrite putchar_backspace_eq.
    destruct (Z.ltb_spec 0 (terminal_column s)) as [Hpos|Hzero].
    - replace (terminal_column s =? 0) with false
        by (symmetry; apply Z.eqb_neq; lia).
      rewrite andb_false_r. cbv zeta. vars.
      rewrite to_size_t_small by (geometry; lia). split; [assumption | lia].
    - assert (Hrow : terminal_row s = 0) by (apply Z.le_antisymm; [|lia];
        apply Z.nlt_ge; intros Hlt; apply Hnot; repeat split; lia).
      assert (Hcol : terminal_column s = 0) by lia.
      rewrite Hrow, Hcol. cbn [Z.eqb andb]. rewrite Hrow, Hcol.
      geometry. lia. }
  rewrite (putchar_regular_eq s c) by (repeat split; assumption).
  cbv zeta. vars. rewrite size_t_succ_eqb by (geometry; lia).
  destruct (Z.eqb_spec (terminal_column s + 1) VGA_WIDTH) as [E|E]; vars.
  - split; [|geometry; lia]. apply advance_row_on_grid. now vars.
  - rewrite to_size_t_small by (geometry; lia). split; [assumption | lia].
Qed.

(** * The scancode loop *)

Section Decoder.

Variable scancode_to_ascii : Z -> bool -> Z.

Lemma kernel_boot_modifiers (s : terminal) :
  is_shift_pressed (kernel_boot s) = false /\
  is_caps_locked (kernel_boot s) = false.
Proof. split; reflexivity. Qed.

(** C8. Whatever state the loop is in: 0x2A and 0x36 set the shift flag,
    0xAA and 0xB6 clear it, 0x3A inverts the caps-lock flag, and each of
    them leaves the other flag and the console alone; 0xBA, and every
    other scancode from 0x80 up except 0xAA and 0xB6, changes neither
    flag and sends nothing to the console.  The loop starts with both
    flags false. *)
Theorem kernel_step_modifiers (k : kernel) (scancode : Z) :
  (scancode = 0x2A \/ scancode = 0x36 ->
   kernel_step scancode_to_ascii k scancode =
     mkKernel true (is_caps_locked k) (console k)) /\
  (scancode = 0xAA \/ scancode = 0xB6 ->
   kernel_step scancode_to_ascii k scancode =
     mkKernel false (is_caps_locked k) (console k)) /\
  (scancode = 0x3A ->
   kernel_step scancode_to_ascii k scancode =
     mkKernel (is_shift_pressed k) (negb (is_caps_locked k)) (console k)) /\
  kernel_step scancode_to_ascii k 0xBA = k /\
  (0x80 <= scancode -> scancode <> 0xAA -> scancode <> 0xB6 ->
   kernel_step scancode_to_ascii k scancode = k) /\
  (forall s, is_shift_pressed (kernel_boot s) = false /\
             is_caps_locked (kernel_boot s) = false).
Proof.
  repeat split.
  - intros [-> | ->]; reflexivity.
  - intros [-> | ->]; reflexivity.
  - intros ->; reflexivity.
  - intros Hhigh Haa Hb6. unfold kernel_step.
    destruct (Z.eqb_spec scancode 0x2A); [lia|].
    destruct (Z.eqb_spec scancode 0x36); [lia|].
    destruct (Z.eqb_spec scancode 0xAA); [lia|].
    destruct (Z.eqb_spec scancode 0xB6); [lia|].
    destruct (Z.eqb_spec scancode 0x3A); [lia|].
    destruct (Z.ltb_spec scancode 0x80); [lia|].
    reflexivity.
Qed.

(** C9. For a scancode below 0x80 that is none of 0x2A, 0x36, 0x3A, the
    loop asks for the upper-case translation exactly when the shift flag
    and the caps-lock flag differ, and sends the character to the
    console unless it is 0; with both flags set the character and the
    console are the ones obtained with both flags clear. *)
Theorem kernel_step_case_selection (k : kernel) (scancode : Z) :
  scancode < 0x80 ->
  scancode <> 0x2A -> scancode <> 0x36 -> scancode <> 0x3A ->
  let c := if xorb (is_shift_pressed k) (is_caps_locked k)
           then scancode_to_ascii scancode true
           else scancode_to_ascii scancode false in
  kernel_step scancode_to_ascii k scancode =
    (if c =? 0 then k
     else mkKernel (is_shift_pressed k) (is_caps_locked k)
            (terminal_putchar (console k) c)) /\
  (forall t : terminal,
     console (kernel_step scancode_to_ascii (mkKernel true true t) scancode) =
     console (kernel_step scancode_to_ascii (mkKernel false false t) scancode)).
Proof.
  intros Hlow H2a H36 H3a. cbv zeta. split.
  - unfold kernel_step.
    destruct (Z.eqb_spec scancode 0x2A); [lia|].
    destruct (Z.eqb_spec scancode 0x36); [lia|].
    destruct (Z.eqb_spec scancode 0xAA); [lia|].
    destruct (Z.eqb_spec scancode 0xB6); [lia|].
    destruct (Z.eqb_spec scancode 0x3A); [lia|].
    destruct (Z.ltb_spec scancode 0x80); [|lia].
    cbn [orb].
    destruct (xorb (is_shift_pressed k) (is_caps_locked k));
      destruct (_ =? 0); reflexivity.
  - intros t. unfold kernel_step.
    destruct (Z.eqb_spec scancode 0x2A); [lia|].
    destruct (Z.eqb_spec scancode 0x36); [lia|].
    destruct (Z.eqb_spec scancode 0xAA); [lia|].
    destruct (Z.eqb_spec scancode 0xB6); [lia|].
    destruct (Z.eqb_spec scancode 0x3A); [lia|].
    destruct (Z.ltb_spec scancode 0x80); [|lia].
    cbn [orb is_shift_pressed is_caps_locked console xorb].
    destruct (_ =? 0); reflexivity.
Qed.

End Decoder.

Lemma kernel_step_modifiers_witness :
  kernel_step one_key_table (mkKernel false true power_on) 0x36 =
    mkKernel true true power_on /\
  kernel_step one_key_table (mkKernel true true power_on) 0xAA =
    mkKernel false true power_on /\
  kernel_step one_key_table (mkKernel true true power_on) 0x3A =
    mkKernel true false power_on /\
  kernel_step one_key_table (mkKernel true true power_on) 0x9E =
    mkKernel true true power_on.
Proof.
  pose proof (kernel_step_modifiers one_key_table
                (mkKernel false true power_on) 0x36) as (Hmake & _).
  pose proof (kernel_step_modifiers one_key_table
                (mkKernel true true power_on) 0xAA) as (_ & Hbreak & _).
  pose proof (kernel_step_modifiers one_key_table
                (mkKernel true true power_on) 0x3A) as (_ & _ & Hcaps & _).
  pose proof (kernel_step_modifiers one_key_table
                (mkKernel true true power_on) 0x9E)
    as (_ & _ & _ & _ & Hrelease & _).
  refine (conj (Hmake _) (conj (Hbreak _) (conj (Hcaps _) (Hrelease _ _ _))));
    try lia; reflexivity.
Defined.

Lemma kernel_step_case_selection_witness :
  kernel_step one_key_table (mkKernel true false power_on) 0x1E =
    mkKernel true false (terminal_putchar power_on 65) /\
  console (kernel_step one_key_table (mkKernel true true power_on) 0x1E) =
    console (kernel_step one_key_table (mkKernel false false power_on) 0x1E).
Proof.
  assert (Hlow : 0x1E < 0x80) by lia.
  assert (H2a : 0x1E <> 0x2A) by lia.
  assert (H36 : 0x1E <> 0x36) by lia.
  assert (H3a : 0x1E <> 0x3A) by lia.
  destruct (kernel_step_case_selection one_key_table
              (mkKernel true false power_on) 0x1E Hlow H2a H36 H3a)
    as [Hsel Hcancel].
  split; [exact Hsel | exact (Hcancel power_on)].
Defined.

(** * Cell and colour packing *)

Lemma pack_low_byte (a b : Z) :
  0 <= a < 2 ^ 8 -> (Z.lor a (Z.shiftl b 8)) mod 2 ^ 8 = a.
Proof.
  intros Ha. rewrite <- Z.land_ones by lia.
  rewrite Z.land_lor_distr_l, !Z.land_ones by lia.
  rewrite Z.shiftl_mul_pow2, Z.mod_mul, Z.lor_0_r by lia.
  now apply Z.mod_small.
Qed.

Lemma pack_high_byte (a b : Z) :
  0 <= a < 2 ^ 8 -> (Z.lor a (Z.shiftl b 8)) / 2 ^ 8 = b.
Proof.
  intros Ha. rewrite <- Z.shiftr_div_pow2 by lia.
  rewrite Z.shiftr_lor, Z.shiftr_shiftl_l by lia.
  rewrite Z.shiftr_div_pow2, Z.div_small by lia.
  now rewrite Z.lor_0_l, Z.shiftl_0_r.
Qed.

Lemma pack_bytes (a b : Z) :
  0 <= a < 2 ^ 8 -> Z.lor a (Z.shiftl b 8) = a + 256 * b.
Proof.
  intros Ha.
  rewrite (Z.div_mod (Z.lor a (Z.shiftl b 8)) (2 ^ 8)) by lia.
  rewrite pack_low_byte, pack_high_byte by exact Ha. lia.
Qed.

(** X1. [vga_entry] keeps both bytes apart: the low byte of the cell is
    the character (as an unsigned char), the high byte is the colour, and
    the cell fits 16 bits. *)
Theorem vga_entry_round_trip (uc color : Z) :
  vga_entry uc color mod 256 = uc mod 256 /\
  vga_entry uc color / 256 = color mod 256 /\
  0 <= vga_entry uc color < 2 ^ 16.
Proof.
  unfold vga_entry, to_uint16, to_uint8.
  assert (Hu : 0 <= uc mod 2 ^ 8 < 2 ^ 8) by (apply Z.mod_pos_bound; lia).
  assert (Hc : 0 <= color mod 2 ^ 8 < 2 ^ 8) by (apply Z.mod_pos_bound; lia).
  rewrite (Z.mod_small (uc mod 2 ^ 8)), (Z.mod_small (color mod 2 ^ 8)) by lia.
  rewrite pack_bytes by exact Hu.
  rewrite (Z.mod_small (_ + _)) by lia.
  change (2 ^ 8) with 256 in *.
  repeat split; try lia.
  - rewrite (Z.mul_comm 256), Z.mod_add by lia.
    apply Z.mod_small. lia.
  - rewrite (Z.mul_comm 256), Z.div_add by lia.
    rewrite (Z.div_small (uc mod 256)) by lia. lia.
Qed.

(** X2. [vga_entry_color] puts the foreground in the low nibble and the
    background in the high nibble of one byte. *)
Theorem vga_entry_color_nibbles (fg bg : vga_color) :
  vga_entry_color fg bg = color_code fg + 16 * color_code bg /\
  vga_entry_color fg bg mod 16 = color_code fg /\
  vga_entry_color fg bg / 16 = color_code bg /\
  0 <= vga_entry_color fg bg < 2 ^ 8.
Proof.
  destruct fg, bg; vm_compute; repeat split; congruence.
Qed.

(** * strlen and terminal_writestring *)

Lemma strlen_prefix (a b : list Z) :
  Forall (fun c => c <> 0) a -> strlen (a ++ 0 :: b) = length a.
Proof.
  induction 1 as [|c a Hc _ IH]; cbn [app strlen length].
  - reflexivity.
  - destruct (Z.eqb_spec c 0); [contradiction|]. now rewrite IH.
Qed.

(** X3. [strlen] counts the bytes before the first zero byte: it never
    exceeds the length of the data, the bytes it counts are all non-zero,
    and the byte it stops at, when there is one, is zero. *)
Theorem strlen_counts_to_first_zero (str : list Z) :
  (strlen str <= length str)%nat /\
  Forall (fun c => c <> 0) (firstn (strlen str) str) /\
  ((strlen str < length str)%nat -> nth (strlen str) str 1 = 0).
Proof.
  induction str as [|c rest (Hle & Hall & Hstop)]; cbn [strlen length].
  - repeat split; [lia | constructor | lia].
  - destruct (Z.eqb_spec c 0) as [->|Hc]; cbn [firstn nth].
    + repeat split; [lia | constructor].
    + repeat split; [lia | now constructor |].
      intros Hlt. apply Hstop. lia.
Qed.

Lemma strlen_counts_to_first_zero_witness :
  nth (strlen [72; 105; 0; 33]) [72; 105; 0; 33] 1 = 0.
Proof.
  apply (strlen_counts_to_first_zero [72; 105; 0; 33]).
  vm_compute. lia.
Defined.

Lemma firstn_strlen_prefix (a b : list Z) :
  Forall (fun c => c <> 0) a ->
  firstn (strlen (a ++ 0 :: b)) (a ++ 0 :: b) = a.
Proof.
  intros Ha.
  rewrite (strlen_prefix a b Ha), firstn_app, Nat.sub_diag, firstn_all.
  cbn [firstn]. apply app_nil_r.
Qed.

(** X4. [terminal_writestring] writes the bytes before the first zero byte
    and nothing after it. *)
Theorem writestring_stops_at_zero (s : terminal) (a b : list Z) :
  Forall (fun c => c <> 0) a ->
  terminal_writestring s (a ++ 0 :: b) = terminal_write s a.
Proof.
  intros Ha. unfold terminal_writestring.
  now rewrite (firstn_strlen_prefix a b Ha).
Qed.

Lemma writestring_stops_at_zero_witness :
  terminal_writestring power_on ([72; 105] ++ 0 :: [33]) =
    terminal_write power_on [72; 105].
Proof.
  apply (writestring_stops_at_zero power_on [72; 105] [33]).
  repeat constructor; discriminate.
Defined.

(** * terminal_initialize, terminal_update_cursor, terminal_setcolor *)

(** X5. [terminal_initialize] puts the cursor at row 0, column 0, selects
    light red on dark grey (0x8C), sets each of the 80 x 25 cells to a
    blank in that colour (0x8C20), leaves the memory outside the grid as
    it was, and programs the hardware cursor to position 0.  Running it
    again changes none of the cursor, the colour and the memory. *)
Theorem initialize_clears_screen (s0 : terminal) (j : Z) :
  let s := terminal_initialize s0 in
  terminal_row s = 0 /\ terminal_column s = 0 /\
  terminal_color s = 0x8C /\
  (on_screen j -> terminal_buffer s j = 0x8C20) /\
  (~ on_screen j -> terminal_buffer s j = terminal_buffer s0 j) /\
  outb_log s = outb_log s0 ++ [(0x3D4, 0x0F); (0x3D5, 0);
                               (0x3D4, 0x0E); (0x3D5, 0)] /\
  (terminal_row (terminal_initialize s) = terminal_row s /\
   terminal_column (terminal_initialize s) = terminal_column s /\
   terminal_color (terminal_initialize s) = terminal_color s /\
   terminal_buffer (terminal_initialize s) j = terminal_buffer s j).
Proof.
  cbv zeta. unfold on_screen.
  destruct (terminal_initialize_spec s0) as (Hr & Hc & Ha & Hl & Hb).
  destruct (terminal_initialize_spec (terminal_initialize s0))
    as (Hr2 & Hc2 & Ha2 & _ & Hb2).
  rewrite Hr2, Hc2, Ha2, Hb2, Hr, Hc, Ha, Hl, !Hb.
  change (vga_entry char_space default_color) with 0x8C20.
  change default_color with 0x8C. geometry.
  repeat split; try (intros Hj); zbool; try lia; reflexivity.
Qed.

Lemma initialize_clears_screen_witness :
  terminal_buffer (terminal_initialize power_on) 1999 = 0x8C20 /\
  terminal_buffer (terminal_initialize power_on) 2000 =
    terminal_buffer power_on 2000.
Proof.
  destruct (initialize_clears_screen power_on 1999) as (_ & _ & _ & Hin & _).
  destruct (initialize_clears_screen power_on 2000)
    as (_ & _ & _ & _ & Hout & _).
  split.
  - apply Hin. unfold on_screen. geometry. lia.
  - apply Hout. unfold on_screen. geometry. lia.
Defined.

(** X6. [terminal_update_cursor] writes index 0x0F and a low byte, then
    index 0x0E and a high byte, to ports 0x3D4/0x3D5; for a position
    [y * 80 + x] below 65536 the two bytes recombine to that position.  It
    touches neither the cursor variables, the colour nor the buffer. *)
Theorem update_cursor_bytes (s : terminal) (x y : Z) :
  0 <= y * VGA_WIDTH + x < 2 ^ 16 ->
  let s' := terminal_update_cursor s x y in
  exists lo hi,
    outb_log s' =
      outb_log s ++ [(0x3D4, 0x0F); (0x3D5, lo); (0x3D4, 0x0E); (0x3D5, hi)] /\
    0 <= lo < 256 /\ 0 <= hi < 256 /\
    lo + 256 * hi = y * VGA_WIDTH + x /\
    terminal_row s' = terminal_row s /\
    terminal_column s' = terminal_column s /\
    terminal_color s' = terminal_color s /\
    terminal_buffer s' = terminal_buffer s.
Proof.
  intros Hpos. cbv zeta. rewrite terminal_update_cursor_spec.
  rewrite Z.mod_small by exact Hpos.
  exists ((y * VGA_WIDTH + x) mod 256), ((y * VGA_WIDTH + x) / 256).
  cbn [outb_log terminal_row terminal_column terminal_color terminal_buffer].
  pose proof (Z.div_mod (y * VGA_WIDTH + x) 256 ltac:(lia)) as Hdm.
  pose proof (Z.mod_pos_bound (y * VGA_WIDTH + x) 256 ltac:(lia)) as Hm.
  repeat split; try lia;
    first [apply Z.div_pos; lia | apply Z.div_lt_upper_bound; lia].
Qed.

Lemma update_cursor_bytes_witness :
  exists lo hi,
    outb_log (terminal_update_cursor power_on 79 24) =
      [(0x3D4, 0x0F); (0x3D5, lo); (0x3D4, 0x0E); (0x3D5, hi)] /\
    lo + 256 * hi = 1999.
Proof.
  assert (Hpos : 0 <= 24 * VGA_WIDTH + 79 < 2 ^ 16) by (geometry; lia).
  destruct (update_cursor_bytes power_on 79 24 Hpos)
    as (lo & hi & Hlog & _ & _ & Hsum & _).
  exists lo, hi. split; [exact Hlog | exact Hsum].
Defined.

(** X7. [terminal_setcolor] repaints nothing and moves nothing; with the
    cursor on the grid, the next regular character (one that causes no
    scroll) is stored under the cursor with the new colour, and every
    other cell of the grid stays as it was. *)
Theorem setcolor_applies_to_next_cell (s : terminal) (color c : Z) :
  in_grid s -> regular c ->
  ~ (terminal_column s + 1 = VGA_WIDTH /\ terminal_row s + 1 = VGA_HEIGHT) ->
  let s1 := terminal_setcolor s color in
  let s' := terminal_putchar s1 c in
  (terminal_buffer s1 = terminal_buffer s /\
   terminal_row s1 = terminal_row s /\
   terminal_column s1 = terminal_column s /\
   outb_log s1 = outb_log s) /\
  terminal_color s' = color mod 256 /\
  cell s' (terminal_column s) (terminal_row s) = vga_entry c color /\
  (forall x y, 0 <= x < VGA_WIDTH -> 0 <= y < VGA_HEIGHT ->
     (x, y) <> (terminal_column s, terminal_row s) ->
     cell s' x y = cell s x y).
Proof.
  intros [Hr Hc] Hreg Hno. cbv zeta.
  split; [repeat split|].
  destruct (putchar_regular_spec (terminal_setcolor s color) c Hreg)
    as (Ha & Hb & _);
    [cbn [terminal_setcolor terminal_row]; geometry; lia
    |cbn [terminal_setcolor terminal_column]; geometry; lia
    |exact Hno|].
  unfold cell. rewrite Ha, Hb. cbn [terminal_setcolor terminal_color
    terminal_row terminal_column terminal_buffer].
  rewrite to_size_t_small by (geometry; lia).
  unfold store. repeat split.
  - rewrite Z.eqb_refl. unfold vga_entry, to_uint8.
    now rewrite Z.mod_mod by lia.
  - intros x y Hx Hy Hne.
    destruct (Z.eqb_spec (y * VGA_WIDTH + x)
                (terminal_row s * VGA_WIDTH + terminal_column s))
      as [E|_]; [|reflexivity].
    exfalso. apply Hne. now apply flat_index_injective.
Qed.

Lemma setcolor_applies_to_next_cell_witness :
  cell (terminal_putchar (terminal_setcolor two_rows_of_A 0x1F) 66)
       (terminal_column two_rows_of_A) (terminal_row two_rows_of_A) =
    vga_entry 66 0x1F.
Proof.
  destruct two_rows_of_A_wf as [_ Hgrid].
  assert (Hreg : regular 66)
    by (unfold regular; vm_compute; repeat split; discriminate).
  assert (Hno : ~ (terminal_column two_rows_of_A + 1 = VGA_WIDTH /\
                   terminal_row two_rows_of_A + 1 = VGA_HEIGHT))
    by (intros [H _]; vm_compute in H; discriminate H).
  destruct (setcolor_applies_to_next_cell two_rows_of_A 0x1F 66
              Hgrid Hreg Hno) as (_ & _ & Hcell & _).
  exact Hcell.
Defined.

(** * Backspace inside a row *)

Lemma putchar_backspace_inside (s : terminal) :
  0 < terminal_column s < 2 ^ 32 ->
  let s' := terminal_putchar s char_backspace in
  terminal_row s' = terminal_row s /\
  terminal_column s' = terminal_column s - 1 /\
  terminal_color s' = terminal_color s /\
  terminal_buffer s' =
    store (terminal_buffer s)
          (to_size_t (terminal_row s * VGA_WIDTH + (terminal_column s - 1)))
          (vga_entry char_space (terminal_color s)).
Proof.
  intros Hc. cbv zeta. rewrite putchar_backspace_eq.
  replace (terminal_column s =? 0) with false
    by (symmetry; apply Z.eqb_neq; lia).
  rewrite andb_false_r.
  replace (0 <? terminal_column s) with true
    by (symmetry; apply Z.ltb_lt; lia).
  cbv zeta. vars. rewrite (to_size_t_small (terminal_column s - 1)) by lia.
  repeat split.
Qed.

(** X8. With the cursor on the grid and not in column 0, backspace moves
    the cursor one column to the left on the same row and blanks the cell
    it arrives at, with the current colour; no other cell changes. *)
Theorem backspace_within_row (s : terminal) :
  in_grid s -> 0 < terminal_column s ->
  let s' := terminal_putchar s char_backspace in
  terminal_row s' = terminal_row s /\
  terminal_column s' = terminal_column s - 1 /\
  cell s' (terminal_column s') (terminal_row s') =
    vga_entry char_space (terminal_color s) /\
  (forall x y, 0 <= x < VGA_WIDTH -> 0 <= y < VGA_HEIGHT ->
     (x, y) <> (terminal_column s', terminal_row s') ->
     cell s' x y = cell s x y).
Proof.
  intros [Hr Hc] Hpos. cbv zeta.
  destruct (putchar_backspace_inside s) as (Hr' & Hc' & _ & Hb);
    [geometry; lia|].
  unfold cell. rewrite Hr', Hc', Hb. unfold store.
  rewrite to_size_t_small by (geometry; lia).
  repeat split.
  - now rewrite Z.eqb_refl.
  - intros x y Hx Hy Hne.
    destruct (Z.eqb_spec (y * VGA_WIDTH + x)
                (terminal_row s * VGA_WIDTH + (terminal_column s - 1)))
      as [E|_]; [|reflexivity].
    exfalso. apply Hne. geometry.
    assert (y = terminal_row s) by nia. subst y.
    f_equal. lia.
Qed.

Lemma backspace_within_row_witness :
  terminal_column
    (terminal_putchar (terminal_putchar two_rows_of_A 66) char_backspace) =
    terminal_column (terminal_putchar two_rows_of_A 66) - 1.
Proof.
  assert (Hgrid : in_grid (terminal_putchar two_rows_of_A 66))
    by (unfold in_grid; vm_compute; repeat split; congruence).
  assert (Hpos : 0 < terminal_column (terminal_putchar two_rows_of_A 66))
    by (vm_compute; reflexivity).
  destruct (backspace_within_row _ Hgrid Hpos) as (_ & Hcol & _).
  exact Hcol.
Defined.

(** X9. Typing a regular character and then backspace, away from the last
    column, brings the cursor back to where it was and leaves a blank in
    that cell; every other memory cell and the colour are as before. *)
Theorem type_then_backspace (s : terminal) (c : Z) :
  in_grid s -> regular c -> terminal_column s + 1 < VGA_WIDTH ->
  let s' := terminal_putchar (terminal_putchar s c) char_backspace in
  let p := terminal_row s * VGA_WIDTH + terminal_column s in
  terminal_row s' = terminal_row s /\
  terminal_column s' = terminal_column s /\
  terminal_color s' = terminal_color s /\
  terminal_buffer s' p = vga_entry char_space (terminal_color s) /\
  (forall j, j <> p -> terminal_buffer s' j = terminal_buffer s j).
Proof.
  intros [Hr Hc] Hreg Hroom. cbv zeta.
  destruct (putchar_regular_spec s c Hreg) as (Ha1 & Hb1 & _ & Hnext);
    [geometry; lia | geometry; lia | lia |].
  destruct Hnext as [Hc1 Hr1]; [lia|].
  rewrite to_size_t_small in Hc1 by (geometry; lia).
  rewrite to_size_t_small in Hb1 by (geometry; lia).
  destruct (putchar_backspace_inside (terminal_putchar s c))
    as (Hr2 & Hc2 & Ha2 & Hb2); [rewrite Hc1; geometry; lia|].
  rewrite Hr2, Hc2, Ha2, Hb2, Hr1, Hc1, Ha1, Hb1.
  rewrite to_size_t_small by (geometry; lia).
  replace (terminal_column s + 1 - 1) with (terminal_column s) by lia.
  unfold store. repeat split; try lia.
  - now rewrite Z.eqb_refl.
  - intros j Hj.
    now destruct (Z.eqb_spec j
                    (terminal_row s * VGA_WIDTH + terminal_column s)).
Qed.

Lemma type_then_backspace_witness :
  terminal_column
    (terminal_putchar (terminal_putchar two_rows_of_A 66) char_backspace) =
    terminal_column two_rows_of_A /\
  terminal_buffer
    (terminal_putchar (terminal_putchar two_rows_of_A 66) char_backspace)
    (terminal_row two_rows_of_A * VGA_WIDTH + terminal_column two_rows_of_A) =
    vga_entry char_space (terminal_color two_rows_of_A).
Proof.
  destruct two_rows_of_A_wf as [_ Hgrid].
  assert (Hreg : regular 66)
    by (unfold regular; vm_compute; repeat split; discriminate).
  assert (Hroom : terminal_column two_rows_of_A + 1 < VGA_WIDTH)
    by (vm_compute; reflexivity).
  destruct (type_then_backspace two_rows_of_A 66 Hgrid Hreg Hroom)
    as (_ & Hcol & _ & Hcell & _).
  split; [exact Hcol | exact Hcell].
Defined.

(** * What terminal_write never does *)

Lemma color_putchar (s : terminal) (c : Z) :
  terminal_color (terminal_putchar s c) = terminal_color s.
Proof.
  destruct (Z.eq_dec c char_backspace) as [Ec|Ec];
    [destruct (Z.eq_dec (terminal_row s) 0) as [Er|Er];
       [destruct (Z.eq_dec (terminal_column s) 0) as [Ek|Ek]|]|].
  1: { subst c. now rewrite putchar_backspace_origin. }
  all: destruct (putchar_ends_with_sync s c) as (s1 & -> & _ & Ha);
    [tauto | now vars].
Qed.

(** X10. No sequence of characters changes the colour: only
    [terminal_setcolor] and [terminal_initialize] assign it. *)
Theorem write_keeps_color (s : terminal) (data : list Z) :
  terminal_color (terminal_write s data) = terminal_color s.
Proof.
  revert s. induction data as [|c rest IH]; intros s.
  - reflexivity.
  - rewrite terminal_write_cons, IH. apply color_putchar.
Qed.

Lemma buffer_scroll_outside (s : terminal) (j : Z) :
  ~ on_screen j ->
  terminal_buffer (terminal_scroll s) j = terminal_buffer s j.
Proof.
  intros Hj. unfold on_screen in Hj.
  destruct (terminal_scroll_spec s) as [_ ->].
  geometry. zbool; try lia; reflexivity.
Qed.

Lemma buffer_advance_row_outside (s : terminal) (j : Z) :
  ~ on_screen j ->
  terminal_buffer (advance_row s) j = terminal_buffer s j.
Proof.
  intros Hj. unfold advance_row. cbv zeta.
  destruct (_ =? _); vars; [|reflexivity].
  rewrite buffer_scroll_outside by exact Hj. now vars.
Qed.

Lemma store_elsewhere (buf : Z -> Z) (i v j : Z) :
  j <> i -> store buf i v j = buf j.
Proof. intros Hj. unfold store. now destruct (Z.eqb_spec j i). Qed.

(** A call that does not take the faulty backspace branch stores nothing
    outside the grid. *)
Lemma putchar_stores_on_screen (s : terminal) (c j : Z) :
  in_grid s ->
  ~ (c = char_backspace /\ terminal_column s = 0 /\ 0 < terminal_row s) ->
  ~ on_screen j ->
  terminal_buffer (terminal_putchar s c) j = terminal_buffer s j.
Proof.
  intros [Hr Hc] Hnot Hj.
  assert (Hcur : forall k, 0 <= k < VGA_WIDTH ->
                   j <> to_size_t (terminal_row s * VGA_WIDTH + k)).
  { intros k Hk E. apply Hj. unfold on_screen.
    rewrite to_size_t_small in E by (geometry; lia). geometry. lia. }
  destruct (Z.eq_dec c char_newline) as [->|Hn].
  { rewrite putchar_newline_eq. vars.
    rewrite buffer_advance_row_outside by exact Hj. now vars. }
  destruct (Z.eq_dec c char_tab) as [->|Ht].
  { rewrite putchar_tab_eq. cbv zeta. destruct (_ <=? _); vars;
      [|reflexivity].
    rewrite buffer_advance_row_outside by exact Hj. now vars. }
  destruct (Z.eq_dec c char_backspace) as [->|Hb].
  { destruct (Z.ltb_spec 0 (terminal_column s)) as [Hpos|Hzero].
    - destruct (putchar_backspace_inside s) as (_ & _ & _ & ->);
        [geometry; lia|].
      apply store_elsewhere, Hcur. lia.
    - rewrite putchar_backspace_origin; [reflexivity | | lia].
      apply Z.le_antisymm; [|lia].
      apply Z.nlt_ge. intros Hlt. apply Hnot. repeat split; lia. }
  rewrite (putchar_regular_eq s c) by (repeat split; assumption).
  cbv zeta. destruct (_ =? _); vars.
  - rewrite buffer_advance_row_outside by exact Hj. vars.
    apply store_elsewhere, Hcur. lia.
  - apply store_elsewhere, Hcur. lia.
Qed.

(** X11. From a cursor on the grid, writing bytes none of which is a
    backspace keeps the cursor on the grid after every byte, and no store
    ever goes outside the 80 x 25 cells. *)
Theorem write_without_backspace_stays_on_screen
    (s : terminal) (data : list Z) :
  in_grid s -> Forall (fun c => c <> char_backspace) data ->
  in_grid (terminal_write s data) /\
  (forall j, ~ on_screen j ->
     terminal_buffer (terminal_write s data) j = terminal_buffer s j).
Proof.
  intros Hgrid Hall. revert s Hgrid.
  induction Hall as [|c rest Hc _ IH]; intros s Hgrid.
  - rewrite terminal_write_nil. auto.
  - rewrite terminal_write_cons.
    assert (Hnot : ~ (c = char_backspace /\ terminal_column s = 0 /\
                      0 < terminal_row s)) by tauto.
    destruct (IH (terminal_putchar s c)) as [Hg Hout].
    + now apply putchar_keeps_cursor_on_grid.
    + split; [exact Hg|]. intros j Hj.
      rewrite (Hout j Hj). now apply putchar_stores_on_screen.
Qed.

Lemma write_without_backspace_stays_on_screen_witness :
  in_grid (terminal_write two_rows_of_A [72; 9; 10; 105]) /\
  terminal_buffer (terminal_write two_rows_of_A [72; 9; 10; 105]) 2000 =
    terminal_buffer two_rows_of_A 2000.
Proof.
  destruct two_rows_of_A_wf as [_ Hgrid].
  assert (Hall : Forall (fun c => c <> char_backspace) [72; 9; 10; 105])
    by (repeat constructor; discriminate).
  destruct (write_without_backspace_stays_on_screen two_rows_of_A
              [72; 9; 10; 105] Hgrid Hall) as [Hg Hout].
  split; [exact Hg|]. apply Hout.
  unfold on_screen. geometry. lia.
Defined.

(** * The hardware cursor follows the cursor variables *)

Lemma putchar_keeps_cursor_synced (s : terminal) (c : Z) :
  hardware_cursor_synced s -> hardware_cursor_synced (terminal_putchar s c).
Proof.
  intros Hs.
  destruct (Z.eq_dec c char_backspace) as [Ec|Ec];
    [destruct (Z.eq_dec (terminal_row s) 0) as [Er|Er];
       [destruct (Z.eq_dec (terminal_column s) 0) as [Ek|Ek]|]|].
  1: { subst c. now rewrite putchar_backspace_origin. }
  all: destruct (putchar_ends_with_sync s c) as (s1 & E & _); [tauto|];
    rewrite E; exists (outb_log s1); apply log_sync_cursor.
Qed.

(** X12. After [terminal_initialize] and any sequence of characters, the
    last four port writes are the cursor sequence for the position the
    cursor variables hold (in 16 bits): the indicator never lags behind,
    backspace at the origin included. *)
Theorem hardware_cursor_always_synced (s0 : terminal) (data : list Z) :
  hardware_cursor_synced (terminal_write (terminal_initialize s0) data).
Proof.
  assert (Hinit : hardware_cursor_synced (terminal_initialize s0)).
  { destruct (terminal_initialize_spec s0) as (Hr & Hc & _ & Hl & _).
    exists (outb_log s0). now rewrite Hl, Hr, Hc. }
  revert Hinit. generalize (terminal_initialize s0).
  induction data as [|c rest IH]; intros s Hs.
  - exact Hs.
  - rewrite terminal_write_cons. apply IH.
    now apply putchar_keeps_cursor_synced.
Qed.

(** * More on scrolling *)

(** X13. [terminal_scroll] stores only inside the grid, and changes neither
    the colour nor the port log: it does not move the hardware cursor. *)
Theorem scroll_touches_grid_only (s : terminal) (j : Z) :
  (~ on_screen j ->
   terminal_buffer (terminal_scroll s) j = terminal_buffer s j) /\
  terminal_color (terminal_scroll s) = terminal_color s /\
  outb_log (terminal_scroll s) = outb_log s.
Proof.
  split; [apply buffer_scroll_outside|]. now vars.
Qed.

Lemma scroll_touches_grid_only_witness :
  terminal_buffer (terminal_scroll two_rows_of_A) 2000 =
    terminal_buffer two_rows_of_A 2000.
Proof.
  apply (proj1 (scroll_touches_grid_only two_rows_of_A 2000)).
  unfold on_screen. geometry. lia.
Defined.

(** [n] scrolls move the cells up by [n] rows and blank the [n] last
    rows. *)
Lemma iterated_scroll_buffer (n : nat) (s : terminal) (j : Z) :
  Z.of_nat n <= VGA_HEIGHT ->
  terminal_color (Nat.iter n terminal_scroll s) = terminal_color s /\
  terminal_buffer (Nat.iter n terminal_scroll s) j =
    if (0 <=? j) && (j <? (VGA_HEIGHT - Z.of_nat n) * VGA_WIDTH) then
      terminal_buffer s (j + Z.of_nat n * VGA_WIDTH)
    else if (0 <=? j) && (j <? VGA_HEIGHT * VGA_WIDTH) then
      vga_entry char_space (terminal_color s)
    else terminal_buffer s j.
Proof.
  revert j. induction n as [|n IH]; intros j Hn.
  - change (Nat.iter 0 terminal_scroll s) with s. split; [reflexivity|].
    rewrite Z.add_0_r. geometry. zbool; try lia; reflexivity.
  - change (Nat.iter (S n) terminal_scroll s)
      with (terminal_scroll (Nat.iter n terminal_scroll s)).
    destruct (terminal_scroll_spec (Nat.iter n terminal_scroll s))
      as [(_ & _ & Ha & _) Hb].
    destruct (IH j) as [Hcol Hj]; [lia|].
    destruct (IH (j + VGA_WIDTH)) as [_ Hj']; [lia|].
    rewrite Ha, Hb, Hcol, Hj, Hj'. split; [reflexivity|].
    rewrite Nat2Z.inj_succ. geometry.
    zbool; try lia; try reflexivity. f_equal. lia.
Qed.

(** X14. Scrolling as many times as the screen has rows blanks every cell
    of the grid, in the current colour. *)
Theorem scroll_full_height_clears (s : terminal) (x y : Z) :
  0 <= x < VGA_WIDTH -> 0 <= y < VGA_HEIGHT ->
  cell (Nat.iter (Z.to_nat VGA_HEIGHT) terminal_scroll s) x y =
    vga_entry char_space (terminal_color s).
Proof.
  intros Hx Hy. unfold cell.
  destruct (iterated_scroll_buffer (Z.to_nat VGA_HEIGHT) s
              (y * VGA_WIDTH + x)) as [_ ->]; [geometry; lia|].
  rewrite Z2Nat.id by (geometry; lia). geometry. zbool; lia.
Qed.

Lemma scroll_full_height_clears_witness :
  cell (Nat.iter (Z.to_nat VGA_HEIGHT) terminal_scroll two_rows_of_A) 79 1 =
    vga_entry char_space (terminal_color two_rows_of_A).
Proof.
  apply (scroll_full_height_clears two_rows_of_A 79 1); geometry; lia.
Defined.

(** X15. A regular character written in the last cell of the screen
    scrolls: the cursor goes to column 0 of the last row, the character is
    found at the end of the row above, the last row is blank, and every
    other cell holds what the cell below it held. *)
Theorem putchar_in_last_cell_scrolls (s : terminal) (c x y : Z) :
  regular c ->
  terminal_row s = VGA_HEIGHT - 1 -> terminal_column s = VGA_WIDTH - 1 ->
  0 <= x < VGA_WIDTH ->
  let s' := terminal_putchar s c in
  terminal_row s' = VGA_HEIGHT - 1 /\ terminal_column s' = 0 /\
  cell s' (VGA_WIDTH - 1) (VGA_HEIGHT - 2) =
    vga_entry c (terminal_color s) /\
  cell s' x (VGA_HEIGHT - 1) = vga_entry char_space (terminal_color s) /\
  (0 <= y < VGA_HEIGHT - 1 -> (x, y) <> (VGA_WIDTH - 1, VGA_HEIGHT - 2) ->
   cell s' x y = cell s x (y + 1)).
Proof.
  intros Hreg Hr Hc Hx. cbv zeta.
  rewrite (putchar_regular_eq s c Hreg). cbv zeta. vars.
  rewrite Hr, Hc.
  replace (to_size_t (VGA_WIDTH - 1 + 1) =? VGA_WIDTH) with true
    by reflexivity.
  vars.
  set (s1 := set_column (set_column (poke s _ _) _) 0).
  destruct (advance_row_scroll s1) as [Hrow Hbuf];
    [subst s1; vars; rewrite Hr; reflexivity|].
  assert (Hb1 : terminal_buffer s1 =
                store (terminal_buffer s)
                      ((VGA_HEIGHT - 1) * VGA_WIDTH + (VGA_WIDTH - 1))
                      (vga_entry c (terminal_color s)))
    by (subst s1; now vars).
  assert (Ha1 : terminal_color s1 = terminal_color s) by (subst s1; now vars).
  unfold cell. rewrite !buffer_sync_cursor, Hrow, !Hbuf.
  destruct (terminal_scroll_spec s1) as [_ Hscroll].
  rewrite !Hscroll, Ha1, Hb1. unfold store. geometry.
  repeat split; try (zbool; lia).
  intros Hy Hne. zbool; try lia; try (f_equal; lia).
  exfalso. apply Hne.
  assert (y = 23) by lia. subst y. f_equal. lia.
Qed.

Lemma putchar_in_last_cell_scrolls_witness :
  terminal_column
    (terminal_putchar (mkTerminal 24 79 0x8C (fun _ => 0x8C20) []) 66) = 0 /\
  cell (terminal_putchar (mkTerminal 24 79 0x8C (fun _ => 0x8C20) []) 66)
       (VGA_WIDTH - 1) (VGA_HEIGHT - 2) = vga_entry 66 0x8C.
Proof.
  assert (Hreg : regular 66)
    by (unfold regular; vm_compute; repeat split; discriminate).
  assert (Hx : 0 <= 5 < VGA_WIDTH) by (geometry; lia).
  destruct (putchar_in_last_cell_scrolls
              (mkTerminal 24 79 0x8C (fun _ => 0x8C20) []) 66 5 3
              Hreg eq_refl eq_refl Hx) as (_ & Hcol & Hcell & _).
  split; [exact Hcol | exact Hcell].
Defined.

(** * More on the scancode loop *)

Section DecoderRuns.

Variable scancode_to_ascii : Z -> bool -> Z.

Lemma caps_after_step (k : kernel) (scancode : Z) :
  is_caps_locked (kernel_step scancode_to_ascii k scancode) =
    xorb (is_caps_locked k) (scancode =? 0x3A).
Proof.
  unfold kernel_step.
  destruct (Z.eqb_spec scancode 0x2A) as [->|_];
    [now rewrite xorb_false_r|].
  destruct (Z.eqb_spec scancode 0x36) as [->|_];
    [now rewrite xorb_false_r|].
  destruct (Z.eqb_spec scancode 0xAA) as [->|_];
    [now rewrite xorb_false_r|].
  destruct (Z.eqb_spec scancode 0xB6) as [->|_];
    [now rewrite xorb_false_r|].
  destruct (Z.eqb_spec scancode 0x3A) as [->|_];
    [now rewrite xorb_true_r|].
  cbn [orb]. rewrite xorb_false_r.
  destruct (_ <? _); [destruct (negb _)|]; reflexivity.
Qed.

Lemma caps_after_run (scancodes : list Z) (k : kernel) :
  is_caps_locked (fold_left (kernel_step scancode_to_ascii) scancodes k) =
    xorb (is_caps_locked k)
         (Nat.odd (count_occ Z.eq_dec scancodes 0x3A)).
Proof.
  revert k. induction scancodes as [|sc rest IH]; intros k.
  - cbn. now rewrite xorb_false_r.
  - cbn [fold_left count_occ]. rewrite IH, caps_after_step.
    destruct (Z.eq_dec sc 58) as [->|Hne].
    + rewrite Nat.odd_succ, <- Nat.negb_odd.
      change (58 =? 58) with true.
      now destruct (is_caps_locked k), (Nat.odd _).
    + replace (sc =? 58) with false by (symmetry; now apply Z.eqb_neq).
      now rewrite xorb_false_r.
Qed.

(** X16. Caps lock is a parity: after any sequence of scancodes the
    caps-lock flag is set exactly when 0x3A occurred an odd number of
    times; no other scancode, 0xBA included, touches it. *)
Theorem caps_lock_is_parity (s : terminal) (scancodes : list Z) :
  is_caps_locked (kernel_main scancode_to_ascii s scancodes) =
    Nat.odd (count_occ Z.eq_dec scancodes 0x3A).
Proof.
  unfold kernel_main. rewrite caps_after_run.
  destruct (kernel_boot_modifiers s) as [_ ->]. apply xorb_false_l.
Qed.

Lemma shift_after_other_step (k : kernel) (scancode : Z) :
  scancode <> 0x2A /\ scancode <> 0x36 /\
  scancode <> 0xAA /\ scancode <> 0xB6 ->
  is_shift_pressed (kernel_step scancode_to_ascii k scancode) =
    is_shift_pressed k.
Proof.
  intros (H1 & H2 & H3 & H4). unfold kernel_step.
  destruct (Z.eqb_spec scancode 0x2A); [contradiction|].
  destruct (Z.eqb_spec scancode 0x36); [contradiction|].
  destruct (Z.eqb_spec scancode 0xAA); [contradiction|].
  destruct (Z.eqb_spec scancode 0xB6); [contradiction|].
  cbn [orb].
  destruct (_ =? _); [reflexivity|].
  destruct (_ <? _); [destruct (negb _)|]; reflexivity.
Qed.

Lemma shift_after_other_run (scancodes : list Z) (k : kernel) :
  Forall (fun sc => sc <> 0x2A /\ sc <> 0x36 /\ sc <> 0xAA /\ sc <> 0xB6)
         scancodes ->
  is_shift_pressed (fold_left (kernel_step scancode_to_ascii) scancodes k) =
    is_shift_pressed k.
Proof.
  intros Hall. revert k.
  induction Hall as [|sc rest Hsc _ IH]; intros k.
  - reflexivity.
  - cbn [fold_left]. rewrite IH. now apply shift_after_other_step.
Qed.

(** X17. The shift flag follows the last shift scancode: after a sequence
    whose last shift scancode is a make (0x2A, 0x36) the flag is set, after
    one whose last shift scancode is a break (0xAA, 0xB6) it is clear, and
    without any shift scancode it is clear as at boot. *)
Theorem shift_follows_last_shift_code
    (s : terminal) (before after : list Z) (scancode : Z) :
  Forall (fun sc => sc <> 0x2A /\ sc <> 0x36 /\ sc <> 0xAA /\ sc <> 0xB6)
         after ->
  (scancode = 0x2A \/ scancode = 0x36 ->
   is_shift_pressed
     (kernel_main scancode_to_ascii s (before ++ scancode :: after)) = true) /\
  (scancode = 0xAA \/ scancode = 0xB6 ->
   is_shift_pressed
     (kernel_main scancode_to_ascii s (before ++ scancode :: after)) = false) /\
  is_shift_pressed (kernel_main scancode_to_ascii s after) = false.
Proof.
  intros Hafter. unfold kernel_main.
  rewrite fold_left_app. cbn [fold_left].
  rewrite !shift_after_other_run by exact Hafter.
  repeat split.
  - intros [-> | ->]; reflexivity.
  - intros [-> | ->]; reflexivity.
Qed.

Lemma console_after_silent_step (k : kernel) (scancode : Z) :
  0x80 <= scancode \/ scancode = 0x2A \/ scancode = 0x36 \/
  scancode = 0x3A \/
  (scancode_to_ascii scancode true = 0 /\
   scancode_to_ascii scancode false = 0) ->
  console (kernel_step scancode_to_ascii k scancode) = console k.
Proof.
  intros Hsilent. unfold kernel_step.
  destruct (Z.eqb_spec scancode 0x2A); [reflexivity|].
  destruct (Z.eqb_spec scancode 0x36); [reflexivity|].
  destruct (Z.eqb_spec scancode 0xAA); [reflexivity|].
  destruct (Z.eqb_spec scancode 0xB6); [reflexivity|].
  destruct (Z.eqb_spec scancode 0x3A); [reflexivity|].
  cbn [orb].
  destruct (Z.ltb_spec scancode 0x80) as [Hlt|Hge]; [|reflexivity].
  destruct Hsilent as [Hs|[Hs|[Hs|[Hs|[Hup Hlow]]]]]; try lia.
  destruct (xorb _ _); rewrite ?Hup, ?Hlow; reflexivity.
Qed.

(** X18. Key releases, the shift and caps-lock keys, and keys whose table
    entry is 0 in both cases never reach the console: after any sequence of
    such scancodes the screen, the cursor and the port log are those left
    by the boot. *)
Theorem silent_scancodes_leave_console (s : terminal) (scancodes : list Z) :
  Forall (fun sc =>
            0x80 <= sc \/ sc = 0x2A \/ sc = 0x36 \/ sc = 0x3A \/
            (scancode_to_ascii sc true = 0 /\
             scancode_to_ascii sc false = 0)) scancodes ->
  console (kernel_main scancode_to_ascii s scancodes) =
    console (kernel_boot s).
Proof.
  intros Hall. unfold kernel_main. generalize (kernel_boot s).
  induction Hall as [|sc rest Hsc _ IH]; intros k.
  - reflexivity.
  - cbn [fold_left]. rewrite IH. now apply console_after_silent_step.
Qed.

End DecoderRuns.

Lemma shift_follows_last_shift_code_witness :
  is_shift_pressed
    (kernel_main one_key_table power_on ([0xAA] ++ 0x2A :: [0x1E; 0x9E])) =
    true.
Proof.
  assert (Hafter : Forall (fun sc => sc <> 0x2A /\ sc <> 0x36 /\
                                     sc <> 0xAA /\ sc <> 0xB6)
                          [0x1E; 0x9E])
    by (repeat constructor; discriminate).
  destruct (shift_follows_last_shift_code one_key_table power_on
              [0xAA] [0x1E; 0x9E] 0x2A Hafter) as (Hmake & _).
  apply Hmake. left. reflexivity.
Defined.

Lemma silent_scancodes_leave_console_witness :
  console (kernel_main one_key_table power_on [0x2A; 0x9E; 0x3A; 0x10; 0xAA]) =
    console (kernel_boot power_on).
Proof.
  apply (silent_scancodes_leave_console one_key_table power_on).
  repeat constructor; vm_compute; intuition congruence.
Defined.

(** * The boot message *)

Lemma boot_text_regular :
  Forall regular (bytes_of Literals.boot_text) /\
  Forall (fun c => c <> 0) (bytes_of Literals.boot_text ++ [char_newline]) /\
  Z.of_nat (length (bytes_of Literals.boot_text)) = 39.
Proof.
  repeat split.
  - apply Forall_forall. intros c Hc. vm_compute in Hc.
    repeat (destruct Hc as [<-|Hc];
            [unfold regular; vm_compute; repeat split; discriminate|]).
    contradiction.
  - apply Forall_forall. intros c Hc. vm_compute in Hc.
    repeat (destruct Hc as [<-|Hc]; [discriminate|]).
    contradiction.
Qed.

(** X19. Whatever the memory held before, the statements of [kernel_main]
    before its loop leave the message on row 0 from column 0 on, in the
    default colour, every other cell of the grid blank, the cursor at the
    start of row 1, and both modifier flags clear. *)
Theorem boot_shows_message (s0 : terminal) (i : Z) :
  let k := kernel_boot s0 in
  is_shift_pressed k = false /\ is_caps_locked k = false /\
  terminal_row (console k) = 1 /\ terminal_column (console k) = 0 /\
  terminal_color (console k) = 0x8C /\
  (0 <= i < 39 ->
   cell (console k) i 0 =
     vga_entry (nth (Z.to_nat i) (bytes_of Literals.boot_text) 0) 0x8C) /\
  (39 <= i < VGA_WIDTH * VGA_HEIGHT ->
   terminal_buffer (console k) i = 0x8C20).
Proof.
  cbv zeta. unfold kernel_boot. cbv zeta.
  cbn [is_shift_pressed is_caps_locked console].
  change boot_message
    with ((bytes_of Literals.boot_text ++ [char_newline]) ++ 0 :: []).
  destruct boot_text_regular as (Hreg & Hnz & Hlen).
  unfold terminal_writestring. rewrite firstn_strlen_prefix by exact Hnz.
  rewrite terminal_write_app, terminal_write_cons, terminal_write_nil.
  destruct (terminal_initialize_spec s0) as (Hr0 & Hc0 & Ha0 & _ & Hb0).
  destruct (terminal_initialize_wf s0) as [_ Hgrid0].
  destruct (write_regular_run (bytes_of Literals.boot_text)
              (terminal_initialize s0) Hreg Hgrid0)
    as ([Hr1 Hc1] & Hp1 & Ha1 & Hb1);
    [rewrite Hr0, Hc0, Hlen; geometry; lia|].
  rewrite Hr0, Hc0, Hlen in Hp1, Hb1. cbn [Z.mul Z.add] in Hp1, Hb1.
  set (s1 := terminal_write (terminal_initialize s0)
               (bytes_of Literals.boot_text)) in *.
  assert (Hrow1 : terminal_row s1 = 0) by (geometry; lia).
  destruct (putchar_newline_spec s1) as (Hc2 & Ha2 & Hstay & _);
    [rewrite Hrow1; lia|].
  destruct Hstay as [Hr2 Hb2]; [rewrite Hrow1; geometry; lia|].
  rewrite Hrow1 in Hr2.
  unfold cell. rewrite Hr2, Hc2, Ha2, Ha1, Ha0, Hb2.
  repeat split.
  - intros Hi. rewrite Hb1, Ha0, Z.sub_0_r. cbn [Z.mul Z.add].
    zbool; try lia. reflexivity.
  - intros Hi. rewrite Hb1, Hb0. geometry. zbool; try lia. reflexivity.
Qed.

Lemma boot_shows_message_witness :
  cell (console (kernel_boot power_on)) 0 0 = vga_entry 75 0x8C /\
  terminal_buffer (console (kernel_boot power_on)) 39 = 0x8C20.
Proof.
  destruct (boot_shows_message power_on 0) as (_ & _ & _ & _ & _ & Hmsg & _).
  destruct (boot_shows_message power_on 39) as (_ & _ & _ & _ & _ & _ & Hrest).
  split.
  - apply Hmsg. lia.
  - apply Hrest. geometry. lia.
Defined.

(** * The first kernel: a cursor that wraps around *)

Lemma stage1_putchar_spec (s : terminal) (c : Z) :
  in_grid s ->
  let s' := Stage1.terminal_putchar s c in
  let p := terminal_row s * VGA_WIDTH + terminal_column s in
  terminal_buffer s' = store (terminal_buffer s) p
                             (vga_entry c (terminal_color s)) /\
  terminal_color s' = terminal_color s /\
  in_grid s' /\
  terminal_row s' * VGA_WIDTH + terminal_column s' =
    (p + 1) mod (VGA_WIDTH * VGA_HEIGHT).
Proof.
  intros [Hr Hc]. cbv zeta. unfold Stage1.terminal_putchar, in_grid.
  unfold terminal_putentryat. cbv zeta. vars.
  rewrite !to_size_t_small by (geometry; lia).
  destruct (Z.eqb_spec (terminal_column s + 1) VGA_WIDTH) as [E|E]; vars.
  - rewrite ?to_size_t_small by (geometry; lia).
    destruct (Z.eqb_spec (terminal_row s + 1) VGA_HEIGHT) as [E'|E']; vars.
    + replace (terminal_row s * VGA_WIDTH + terminal_column s + 1)
        with (VGA_WIDTH * VGA_HEIGHT) by (geometry; lia).
      rewrite Z.mod_same by (geometry; lia).
      repeat split; geometry; lia.
    + rewrite Z.mod_small by (geometry; lia).
      repeat split; geometry; lia.
  - rewrite Z.mod_small by (geometry; lia).
    repeat split; geometry; lia.
Qed.

(** X20. In the first kernel every byte, newline included, is stored as a
    glyph at the cursor, and the cursor moves to the next cell in row
    order, the cell after the last one being the first: the cursor never
    leaves the grid and nothing scrolls. *)
Theorem stage1_putchar_wraps_around (s : terminal) (c : Z) :
  in_grid s ->
  let s' := Stage1.terminal_putchar s c in
  let p := terminal_row s * VGA_WIDTH + terminal_column s in
  cell s' (terminal_column s) (terminal_row s) =
    vga_entry c (terminal_color s) /\
  (forall j, j <> p -> terminal_buffer s' j = terminal_buffer s j) /\
  in_grid s' /\
  terminal_row s' * VGA_WIDTH + terminal_column s' =
    (p + 1) mod (VGA_WIDTH * VGA_HEIGHT).
Proof.
  intros Hgrid. cbv zeta.
  destruct (stage1_putchar_spec s c Hgrid) as (Hb & _ & Hg & Hp).
  unfold cell. rewrite Hb. unfold store. repeat split; try apply Hg.
  - now rewrite Z.eqb_refl.
  - intros j Hj.
    now destruct (Z.eqb_spec j
                    (terminal_row s * VGA_WIDTH + terminal_column s)).
  - exact Hp.
Qed.

Lemma stage1_putchar_wraps_around_witness :
  in_grid (Stage1.terminal_putchar
             (mkTerminal 24 79 0x07 (fun _ => 0x0720) []) 10) /\
  terminal_row (Stage1.terminal_putchar
                  (mkTerminal 24 79 0x07 (fun _ => 0x0720) []) 10)
    * VGA_WIDTH +
  terminal_column (Stage1.terminal_putchar
                     (mkTerminal 24 79 0x07 (fun _ => 0x0720) []) 10) =
    (24 * VGA_WIDTH + 79 + 1) mod (VGA_WIDTH * VGA_HEIGHT).
Proof.
  assert (Hgrid : in_grid (mkTerminal 24 79 0x07 (fun _ => 0x0720) []))
    by (unfold in_grid; cbn; geometry; lia).
  destruct (stage1_putchar_wraps_around _ 10 Hgrid) as (_ & _ & Hg & Hp).
  split; [exact Hg | exact Hp].
Defined.

(** X21. In the first kernel, writing any bytes from a cursor on the grid
    leaves the cursor on the grid, at the flat position advanced by their
    number modulo 80 * 25; no memory outside the grid is stored to and the
    colour is unchanged. *)
Theorem stage1_write_stays_on_screen (s : terminal) (data : list Z) :
  in_grid s ->
  let s' := Stage1.terminal_write s data in
  in_grid s' /\
  terminal_row s' * VGA_WIDTH + terminal_column s' =
    (terminal_row s * VGA_WIDTH + terminal_column s +
     Z.of_nat (length data)) mod (VGA_WIDTH * VGA_HEIGHT) /\
  terminal_color s' = terminal_color s /\
  (forall j, ~ on_screen j -> terminal_buffer s' j = terminal_buffer s j).
Proof.
  revert s. induction data as [|c rest IH]; intros s Hgrid; cbv zeta.
  - cbn [Stage1.terminal_write fold_left length Z.of_nat].
    rewrite Z.add_0_r.
    repeat split; try apply Hgrid.
    symmetry. apply Z.mod_small. destruct Hgrid. geometry. lia.
  - change (Stage1.terminal_write s (c :: rest))
      with (Stage1.terminal_write (Stage1.terminal_putchar s c) rest).
    destruct (stage1_putchar_spec s c Hgrid) as (Hb & Ha & Hg & Hp).
    destruct (IH _ Hg) as (Hg' & Hp' & Ha' & Hout).
    rewrite Hp', Ha', Hp, Ha. cbn [length]. rewrite Nat2Z.inj_succ.
    repeat split; try apply Hg'.
    + rewrite Z.add_mod_idemp_l by (geometry; lia). f_equal. lia.
    + intros j Hj. rewrite (Hout j Hj), Hb.
      apply store_elsewhere. intros E. apply Hj. unfold on_screen.
      destruct Hgrid. geometry. lia.
Qed.

Lemma stage1_write_stays_on_screen_witness :
  in_grid (Stage1.terminal_write
             (mkTerminal 24 78 0x07 (fun _ => 0x0720) []) [72; 10; 105]) /\
  terminal_buffer
    (Stage1.terminal_write
       (mkTerminal 24 78 0x07 (fun _ => 0x0720) []) [72; 10; 105]) 2000 =
    0x0720.
Proof.
  assert (Hgrid : in_grid (mkTerminal 24 78 0x07 (fun _ => 0x0720) []))
    by (unfold in_grid; cbn; geometry; lia).
  destruct (stage1_write_stays_on_screen _ [72; 10; 105] Hgrid)
    as (Hg & _ & _ & Hout).
  split; [exact Hg|].
  apply (Hout 2000). unfold on_screen. geometry. lia.
Defined.

(** * The second kernel: newline and tab without bounds *)

Lemma stage2_newlines (n : nat) (s : terminal) :
  0 <= terminal_row s -> terminal_row s + Z.of_nat n < 2 ^ 32 ->
  let s' := Stage2.terminal_write s (repeat char_newline n) in
  terminal_row s' = terminal_row s + Z.of_nat n /\
  terminal_buffer s' = terminal_buffer s /\
  terminal_color s' = terminal_color s /\
  ((0 < n)%nat -> terminal_column s' = 0).
Proof.
  revert s. induction n as [|n IH]; intros s Hr Hn; cbv zeta.
  - cbn. repeat split; lia.
  - change (Stage2.terminal_write s (repeat char_newline (S n)))
      with (Stage2.terminal_write
              (set_row (set_column s 0) (to_size_t (terminal_row s + 1)))
              (repeat char_newline n)).
    destruct (IH (set_row (set_column s 0) (to_size_t (terminal_row s + 1))))
      as (Hr' & Hb' & Ha' & Hc').
    + vars. rewrite to_size_t_small by lia. lia.
    + vars. rewrite to_size_t_small by lia. lia.
    + rewrite Hr', Hb', Ha'. vars.
      rewrite to_size_t_small in * by lia.
      repeat split; try lia.
      intros _. destruct (Nat.eq_dec n 0) as [->|Hpos];
        [reflexivity | apply Hc'; lia].
Qed.

(** X22. In the second kernel newlines never stop at the last row: [n]
    newlines add [n] to the row, without wrap or scroll.  Once the row is
    past the grid, the next glyph is stored at the flat index
    row * 80 + 0, which is outside the 80 x 25 cells. *)
Theorem stage2_newline_leaves_grid (s : terminal) (n : nat) (c : Z) :
  in_grid s -> c <> char_newline -> c <> char_tab ->
  VGA_HEIGHT <= terminal_row s + Z.of_nat n < 2 ^ 24 ->
  let s1 := Stage2.terminal_write s (repeat char_newline n) in
  let s2 := Stage2.terminal_putchar s1 c in
  let r := terminal_row s + Z.of_nat n in
  terminal_row s1 = r /\ terminal_column s1 = 0 /\
  terminal_buffer s1 = terminal_buffer s /\
  ~ in_grid s1 /\
  ~ on_screen (r * VGA_WIDTH) /\
  terminal_buffer s2 (r * VGA_WIDTH) = vga_entry c (terminal_color s).
Proof.
  intros [Hr Hc] Hn Ht Hrow. cbv zeta.
  destruct (stage2_newlines n s) as (Hr1 & Hb1 & Ha1 & Hc1); [lia | lia |].
  rewrite Hr1, Hb1, Hc1 by (geometry; lia).
  repeat split.
  - unfold in_grid. rewrite Hr1. lia.
  - unfold on_screen. geometry. lia.
  - unfold Stage2.terminal_putchar.
    destruct (Z.eqb_spec c char_newline); [contradiction|].
    destruct (Z.eqb_spec c char_tab); [contradiction|].
    unfold terminal_putentryat. cbv zeta. vars.
    rewrite Hc1 by (geometry; lia).
    change (to_size_t (0 + 1) =? VGA_WIDTH) with false. cbv iota.
    vars. rewrite Hr1, Hb1, Ha1, Z.add_0_r.
    rewrite to_size_t_small by (geometry; lia).
    unfold store. now rewrite Z.eqb_refl.
Qed.

Lemma stage2_newline_leaves_grid_witness :
  terminal_row
    (Stage2.terminal_write (mkTerminal 24 5 0x01 (fun _ => 0x0120) [])
       (repeat char_newline 1)) = 24 + 1 /\
  terminal_buffer
    (Stage2.terminal_putchar
       (Stage2.terminal_write (mkTerminal 24 5 0x01 (fun _ => 0x0120) [])
          (repeat char_newline 1)) 72)
    ((24 + 1) * VGA_WIDTH) = vga_entry 72 0x01.
Proof.
  assert (Hgrid : in_grid (mkTerminal 24 5 0x01 (fun _ => 0x0120) []))
    by (unfold in_grid; cbn; geometry; lia).
  assert (Hn : 72 <> char_newline) by discriminate.
  assert (Ht : 72 <> char_tab) by discriminate.
  assert (Hrow : VGA_HEIGHT <= 24 + Z.of_nat 1 < 2 ^ 24) by (geometry; lia).
  destruct (stage2_newline_leaves_grid
              (mkTerminal 24 5 0x01 (fun _ => 0x0120) []) 1 72
              Hgrid Hn Ht Hrow) as (Hr & _ & _ & _ & _ & Hcell).
  split; [exact Hr | exact Hcell].
Defined.

(** X23. In the second kernel a tab adds 4 to the column and stores
    nothing.  From column 76 on the column reaches 80 or more without any
    wrap: the next glyph is stored past the end of the row, in the row
    below, and the column keeps growing beyond the width. *)
Theorem stage2_tab_passes_the_margin (s : terminal) (c : Z) :
  in_grid s -> c <> char_newline -> c <> char_tab ->
  let s1 := Stage2.terminal_putchar s char_tab in
  let s2 := Stage2.terminal_putchar s1 c in
  terminal_column s1 = terminal_column s + 4 /\
  terminal_row s1 = terminal_row s /\
  terminal_buffer s1 = terminal_buffer s /\
  (terminal_column s + 4 < VGA_WIDTH -> in_grid s1) /\
  (VGA_WIDTH <= terminal_column s + 4 ->
   ~ in_grid s1 /\
   terminal_column s2 = terminal_column s + 5 /\
   terminal_row s2 = terminal_row s /\
   cell s2 (terminal_column s + 4 - VGA_WIDTH) (terminal_row s + 1) =
     vga_entry c (terminal_color s)).
Proof.
  intros [Hr Hc] Hn Ht. cbv zeta.
  assert (E1 : Stage2.terminal_putchar s char_tab =
               set_column s (terminal_column s + 4)).
  { unfold Stage2.terminal_putchar.
    change (char_tab =? char_newline) with false.
    change (char_tab =? char_tab) with true. cbv iota.
    now rewrite to_size_t_small by (geometry; lia). }
  rewrite E1. vars.
  split; [reflexivity|]. split; [reflexivity|]. split; [reflexivity|].
  split.
  - intros Hfit. unfold in_grid. vars. lia.
  - intros Hpast. split; [unfold in_grid; vars; lia|].
    unfold Stage2.terminal_putchar, cell.
    destruct (Z.eqb_spec c char_newline); [contradiction|].
    destruct (Z.eqb_spec c char_tab); [contradiction|].
    unfold terminal_putentryat. cbv zeta. vars.
    rewrite (to_size_t_small (_ + 1)) by (geometry; lia).
    destruct (Z.eqb_spec (terminal_column s + 4 + 1) VGA_WIDTH);
      [geometry; lia|].
    vars. rewrite to_size_t_small by (geometry; lia).
    unfold store.
    replace ((terminal_row s + 1) * VGA_WIDTH +
             (terminal_column s + 4 - VGA_WIDTH))
      with (terminal_row s * VGA_WIDTH + (terminal_column s + 4))
      by (geometry; lia).
    rewrite Z.eqb_refl. repeat split; lia.
Qed.

Lemma stage2_tab_passes_the_margin_witness :
  terminal_column
    (Stage2.terminal_putchar
       (Stage2.terminal_putchar
          (mkTerminal 3 78 0x01 (fun _ => 0x0120) []) char_tab) 72) = 78 + 5 /\
  cell (Stage2.terminal_putchar
          (Stage2.terminal_putchar
             (mkTerminal 3 78 0x01 (fun _ => 0x0120) []) char_tab) 72)
       (78 + 4 - VGA_WIDTH) (3 + 1) = vga_entry 72 0x01.
Proof.
  assert (Hgrid : in_grid (mkTerminal 3 78 0x01 (fun _ => 0x0120) []))
    by (unfold in_grid; cbn; geometry; lia).
  assert (Hn : 72 <> char_newline) by discriminate.
  assert (Ht : 72 <> char_tab) by discriminate.
  destruct (stage2_tab_passes_the_margin
              (mkTerminal 3 78 0x01 (fun _ => 0x0120) []) 72 Hgrid Hn Ht)
    as (_ & _ & _ & _ & Hpast).
  destruct Hpast as (_ & Hcol & _ & Hcell); [geometry; cbn; lia|].
  split; [exact Hcol | exact Hcell].
Defined.

(** * terminal_initialize in the earlier kernels *)

Lemma early_initialize_spec (s0 : terminal) (color : Z) :
  let s := for_upto (Z.to_nat VGA_HEIGHT) (fun y s =>
             for_upto (Z.to_nat VGA_WIDTH) (fun x s =>
               let index := to_size_t (y * VGA_WIDTH + x) in
               poke s index (vga_entry char_space (terminal_color s))) s)
             (mkTerminal 0 0 color (terminal_buffer s0) (outb_log s0)) in
  terminal_row s = 0 /\ terminal_column s = 0 /\ terminal_color s = color /\
  outb_log s = outb_log s0 /\
  forall j, terminal_buffer s j =
            if (0 <=? j) && (j <? VGA_HEIGHT * VGA_WIDTH)
            then vga_entry char_space color else terminal_buffer s0 j.
Proof.
  cbv zeta.
  destruct (initialize_fill_loop
              (mkTerminal 0 0 color (terminal_buffer s0) (outb_log s0)))
    as [(Hr & Hc & Ha & Hl) Hb].
  auto.
Qed.

(** X24. The two earlier kernels initialize like the final one, in light
    grey on black (0x07) and in blue on black (0x01): cursor at row 0,
    column 0, every cell of the grid a blank in that colour, memory
    outside the grid untouched.  Unlike the final one they write to no
    port, so the hardware cursor stays where the firmware left it. *)
Theorem early_initialize_clears_screen (s0 : terminal) (j : Z) :
  let s1 := Stage1.terminal_initialize s0 in
  let s2 := Stage2.terminal_initialize s0 in
  (terminal_row s1 = 0 /\ terminal_column s1 = 0 /\
   terminal_color s1 = 0x07 /\ outb_log s1 = outb_log s0 /\
   (on_screen j -> terminal_buffer s1 j = 0x0720) /\
   (~ on_screen j -> terminal_buffer s1 j = terminal_buffer s0 j)) /\
  (terminal_row s2 = 0 /\ terminal_column s2 = 0 /\
   terminal_color s2 = 0x01 /\ outb_log s2 = outb_log s0 /\
   (on_screen j -> terminal_buffer s2 j = 0x0120) /\
   (~ on_screen j -> terminal_buffer s2 j = terminal_buffer s0 j)).
Proof.
  cbv zeta. unfold on_screen.
  destruct (early_initialize_spec s0 0x07) as (Hr1 & Hc1 & Ha1 & Hl1 & Hb1).
  destruct (early_initialize_spec s0 0x01) as (Hr2 & Hc2 & Ha2 & Hl2 & Hb2).
  split.
  - refine (conj Hr1 (conj Hc1 (conj Ha1 (conj Hl1 _)))).
    split; intros Hj; refine (eq_trans (Hb1 j) _);
      geometry; zbool; try lia; reflexivity.
  - refine (conj Hr2 (conj Hc2 (conj Ha2 (conj Hl2 _)))).
    split; intros Hj; refine (eq_trans (Hb2 j) _);
      geometry; zbool; try lia; reflexivity.
Qed.

Lemma early_initialize_clears_screen_witness :
  terminal_buffer (Stage1.terminal_initialize power_on) 1999 = 0x0720 /\
  terminal_buffer (Stage2.terminal_initialize power_on) 2000 =
    terminal_buffer power_on 2000.
Proof.
  destruct (early_initialize_clears_screen power_on 1999)
    as ((_ & _ & _ & _ & Hin & _) & _).
  destruct (early_initialize_clears_screen power_on 2000)
    as (_ & (_ & _ & _ & _ & _ & Hout)).
  split.
  - apply Hin. unfold on_screen. geometry. lia.
  - apply Hout. unfold on_screen. geometry. lia.
Defined.
